(** * Door monitor: the state-transition and daily-aggregation core

    A shallow embedding of [BackEnd/door_monitor.py].  The program keeps two
    JSON files ([current_status.json], [day_data.json]), pushes documents to
    the Firestore collection [door_data], and has two entry points:
    [update_status] (called on every edge of the door switch) and
    [new_day_is_here] (called by the scheduler at 00:01).

    The embedding follows the script top to bottom:
    - [Json]: the values [json.load] returns and [json.dump] accepts, the
      text [json.dump] writes and a reader for that text;
    - [Py]: the dictionary, list and comparison operations the script applies
      to those values, with the exceptions they raise;
    - [Exec]: the machine state (two files, the remote collection, a history
      of the externally visible actions) and a state-and-exception monad;
    - [Monitor]: the functions of the script, one definition per function,
      and the records of the data model with the JSON that holds them;
    - [Props] and [Examples]: the vocabulary of the statements and a few
      concrete machines;
    - [JsonFacts]: [json.load] reads back what [json.dump] wrote;
    - [MonitorFacts]: what each path through the script leaves behind;
    - [Claims]: the properties of the specification;
    - [Program] (with the definitions) and [Extras] (last): start-up, the
      callbacks one after the other, and further properties of the script:
      what it does on missing or unreadable files and on failed remote
      calls, what it keeps, and how its functions compose. *)

From Stdlib Require Import ZArith List String Ascii Bool Lia.
From Stdlib Require Import DecimalString DecimalZ.
From stdpp Require Import base gmap strings.
Import ListNotations.

Local Open Scope Z_scope.

(* ===================================================================== *)
(** * JSON values and their text *)
(* ===================================================================== *)

Module Json.

(** The fragment of JSON the script reads and writes: integers, strings,
    arrays and objects.  An object is a Python [dict]: keys in insertion
    order, no key twice.  Floats, [true], [false] and [null] are left out:
    the script never writes them. *)
Unset Elimination Schemes.
Inductive json : Type :=
| JInt (z : Z)
| JStr (s : string)
| JArr (l : list json)
| JObj (kvs : list (string * json)).
Set Elimination Schemes.

(** ** Characters *)

(** The double quote. *)
Definition dquote : ascii := "034"%char.

Definition is_digit (c : ascii) : bool :=
  let n := nat_of_ascii c in (48 <=? n)%nat && (n <=? 57)%nat.

(** Whitespace [json.load] skips between tokens. *)
Definition is_ws (c : ascii) : bool :=
  Ascii.eqb c " "%char || Ascii.eqb c "009"%char || Ascii.eqb c "010"%char
  || Ascii.eqb c "013"%char.

(** A character [json.dump] writes as itself inside a string: printable
    ASCII other than the double quote and the backslash. *)
Definition plain_char (c : ascii) : bool :=
  let n := nat_of_ascii c in
  (32 <=? n)%nat && (n <=? 126)%nat && negb (n =? 34)%nat && negb (n =? 92)%nat.

Definition plain (s : string) : bool := forallb plain_char (list_ascii_of_string s).

(** ** Writing: [json.dump] with its default separators [", "] and [": "]

    Strings are written between quotes as they are.  Every string the
    script writes is a field name, a key read from a file by [json_load]
    below, or a date made by [strftime]: all [plain], none needs an escape
    sequence. *)

Definition dump_int (z : Z) : list ascii :=
  list_ascii_of_string (NilEmpty.string_of_int (Z.to_int z)).

Definition dump_str (s : string) : list ascii :=
  dquote :: list_ascii_of_string s ++ [dquote].

Definition item_sep {A} (rest : list A) : list ascii :=
  match rest with
  | [] => []
  | _ :: _ => [","%char; " "%char]
  end.

Fixpoint dump (v : json) : list ascii :=
  match v with
  | JInt z => dump_int z
  | JStr s => dump_str s
  | JArr l =>
      "["%char ::
      (fix elems (l : list json) : list ascii :=
         match l with
         | [] => ["]"%char]
         | x :: l' => dump x ++ item_sep l' ++ elems l'
         end) l
  | JObj kvs =>
      "{"%char ::
      (fix members (kvs : list (string * json)) : list ascii :=
         match kvs with
         | [] => ["}"%char]
         | (k, x) :: kvs' =>
             dump_str k ++ [":"%char; " "%char] ++ dump x ++ item_sep kvs' ++ members kvs'
         end) kvs
  end.

Fixpoint dump_elems (l : list json) : list ascii :=
  match l with
  | [] => ["]"%char]
  | x :: l' => dump x ++ item_sep l' ++ dump_elems l'
  end.

Fixpoint dump_members (kvs : list (string * json)) : list ascii :=
  match kvs with
  | [] => ["}"%char]
  | (k, x) :: kvs' =>
      dump_str k ++ [":"%char; " "%char] ++ dump x ++ item_sep kvs' ++ dump_members kvs'
  end.

Definition json_dump (v : json) : string := string_of_list_ascii (dump v).

(** ** Reading: [json.load] *)

Fixpoint skip_ws (s : list ascii) : list ascii :=
  match s with
  | c :: s' => if is_ws c then skip_ws s' else s
  | [] => []
  end.

Fixpoint span_digits (s : list ascii) : list ascii * list ascii :=
  match s with
  | c :: s' =>
      if is_digit c then let (ds, r) := span_digits s' in (c :: ds, r) else ([], s)
  | [] => ([], [])
  end.

(** More than one digit, the first of them a zero. *)
Definition leading_zero (ds : list ascii) : bool :=
  match ds with
  | c :: _ :: _ => Ascii.eqb c "0"%char
  | _ => false
  end.

(** An integer literal: an optional minus sign, then [0] or digits that do
    not start with a zero. *)
Definition parse_int (s : list ascii) : option (Z * list ascii) :=
  let (sign, body) :=
    match s with
    | c :: s' => if Ascii.eqb c "-"%char then ([c], s') else ([], s)
    | [] => ([], s)
    end in
  match span_digits body with
  | ([], _) => None
  | (ds, r) =>
      if leading_zero ds then None
      else
        match NilEmpty.int_of_string (string_of_list_ascii (sign ++ ds)) with
        | Some d => Some (Z.of_int d, r)
        | None => None
        end
  end.

(** The body of a string literal, after its opening quote.  Escape sequences
    are not read: a backslash or a control character ends in a failure. *)
Fixpoint parse_str_body (s : list ascii) : option (list ascii * list ascii) :=
  match s with
  | [] => None
  | c :: s' =>
      if Ascii.eqb c dquote then Some ([], s')
      else if plain_char c then
        match parse_str_body s' with
        | Some (cs, r) => Some (c :: cs, r)
        | None => None
        end
      else None
  end.

Definition parse_str (s : list ascii) : option (string * list ascii) :=
  match s with
  | c :: s' =>
      if Ascii.eqb c dquote then
        match parse_str_body s' with
        | Some (cs, r) => Some (string_of_list_ascii cs, r)
        | None => None
        end
      else None
  | [] => None
  end.

(** [d[k] = x] on a Python dict: an existing key keeps its place and takes
    the new value, a new key goes last. *)
Fixpoint dict_set (k : string) (x : json) (kvs : list (string * json))
  : list (string * json) :=
  match kvs with
  | [] => [(k, x)]
  | (k', x') :: kvs' =>
      if String.eqb k k' then (k', x) :: kvs' else (k', x') :: dict_set k x kvs'
  end.

(** The dict [json.load] builds from the members of an object, read left to
    right: a repeated key keeps its last value. *)
Definition dict_of_members (kvs : list (string * json)) : list (string * json) :=
  fold_left (fun d kv => dict_set (fst kv) (snd kv) d) kvs [].

(** Recursive descent, with [n] bounding the number of nested calls. *)
Fixpoint parse_value (n : nat) (s : list ascii) : option (json * list ascii) :=
  match n with
  | O => None
  | S n =>
      match skip_ws s with
      | [] => None
      | c :: r =>
          if Ascii.eqb c "["%char then
            match skip_ws r with
            | [] => None
            | c' :: r' =>
                if Ascii.eqb c' "]"%char then Some (JArr [], r')
                else
                  match parse_elems n (c' :: r') with
                  | Some (l, r'') => Some (JArr l, r'')
                  | None => None
                  end
            end
          else if Ascii.eqb c "{"%char then
            match skip_ws r with
            | [] => None
            | c' :: r' =>
                if Ascii.eqb c' "}"%char then Some (JObj [], r')
                else
                  match parse_members n (c' :: r') with
                  | Some (kvs, r'') => Some (JObj (dict_of_members kvs), r'')
                  | None => None
                  end
            end
          else if Ascii.eqb c dquote then
            match parse_str (c :: r) with
            | Some (str, r') => Some (JStr str, r')
            | None => None
            end
          else
            match parse_int (c :: r) with
            | Some (z, r') => Some (JInt z, r')
            | None => None
            end
      end
  end
with parse_elems (n : nat) (s : list ascii) : option (list json * list ascii) :=
  match n with
  | O => None
  | S n =>
      match parse_value n s with
      | Some (x, r) =>
          match skip_ws r with
          | [] => None
          | c :: r' =>
              if Ascii.eqb c ","%char then
                match parse_elems n r' with
                | Some (l, r'') => Some (x :: l, r'')
                | None => None
                end
              else if Ascii.eqb c "]"%char then Some ([x], r')
              else None
          end
      | None => None
      end
  end
with parse_members (n : nat) (s : list ascii)
  : option (list (string * json) * list ascii) :=
  match n with
  | O => None
  | S n =>
      match parse_str (skip_ws s) with
      | Some (k, r) =>
          match skip_ws r with
          | [] => None
          | c :: r1 =>
              if Ascii.eqb c ":"%char then
                match parse_value n r1 with
                | Some (x, r2) =>
                    match skip_ws r2 with
                    | [] => None
                    | c' :: r3 =>
                        if Ascii.eqb c' ","%char then
                          match parse_members n r3 with
                          | Some (kvs, r4) => Some ((k, x) :: kvs, r4)
                          | None => None
                          end
                        else if Ascii.eqb c' "}"%char then Some ([(k, x)], r3)
                        else None
                    end
                | None => None
                end
              else None
          end
      | None => None
      end
  end.

(** [json.load]: one value, then nothing but whitespace.  The reader is
    strict: what it accepts, [json.load] accepts and reads as the same
    value; text outside the fragment (a float, [true], an escape sequence,
    a character beyond ASCII) is refused. *)
Definition json_load (txt : string) : option json :=
  let s := list_ascii_of_string txt in
  match parse_value (S (length s)) s with
  | Some (v, r) =>
      match skip_ws r with
      | [] => Some v
      | _ :: _ => None
      end
  | None => None
  end.

(** ** Values that survive a write followed by a read *)

(** [k in d] on a Python dict. *)
Fixpoint has_key (k : string) (kvs : list (string * json)) : bool :=
  match kvs with
  | [] => false
  | (k', _) :: kvs' => String.eqb k k' || has_key k kvs'
  end.

Fixpoint nodup_keys (kvs : list (string * json)) : bool :=
  match kvs with
  | [] => true
  | (k, _) :: kvs' => negb (has_key k kvs') && nodup_keys kvs'
  end.

(** Every string is written without an escape sequence and no object
    repeats a key. *)
Fixpoint wf (v : json) : bool :=
  match v with
  | JInt _ => true
  | JStr s => plain s
  | JArr l => forallb wf l
  | JObj kvs =>
      forallb (fun kv => plain (fst kv) && wf (snd kv)) kvs && nodup_keys kvs
  end.

(** Nested calls [parse_value] needs to read the text of [v]. *)
Fixpoint need (v : json) : nat :=
  match v with
  | JInt _ | JStr _ => 1
  | JArr l => S (fold_right (fun x acc => S (need x + acc)) O l)
  | JObj kvs => S (fold_right (fun kv acc => S (need (snd kv) + acc)) O kvs)
  end.

Definition need_elems (l : list json) : nat :=
  fold_right (fun x acc => S (need x + acc)) O l.

Definition need_members (kvs : list (string * json)) : nat :=
  fold_right (fun kv acc => S (need (snd kv) + acc)) O kvs.

(** What may follow a value for its last digit to be recognised as such. *)
Definition no_digit_head (s : list ascii) : bool :=
  match s with
  | [] => true
  | c :: _ => negb (is_digit c)
  end.

(** A character a value can start with. *)
Definition value_start (c : ascii) : bool :=
  is_digit c || Ascii.eqb c "-"%char || Ascii.eqb c "["%char
  || Ascii.eqb c "{"%char || Ascii.eqb c dquote.

End Json.

(* ===================================================================== *)
(** * The Python operations the script applies to JSON values *)
(* ===================================================================== *)

Module Py.
Import Json.

Inductive exn : Type :=
| KeyError | TypeError | IndexError | AttributeError | StopIteration
| JSONDecodeError | FileNotFoundError | RemoteError.

(** All of them are caught by [except Exception]. *)
Inductive result (A : Type) : Type :=
| Ok (a : A)
| Raise (e : exn).
Arguments Ok {A} a.
Arguments Raise {A} e.

Fixpoint dict_get (k : string) (kvs : list (string * json)) : option json :=
  match kvs with
  | [] => None
  | (k', x) :: kvs' => if String.eqb k k' then Some x else dict_get k kvs'
  end.

(** Position [i] of a sequence of length [len], counted from the end when
    negative. *)
Definition seq_index (i : Z) (len : nat) : option nat :=
  if 0 <=? i then
    if i <? Z.of_nat len then Some (Z.to_nat i) else None
  else
    if 0 <=? Z.of_nat len + i then Some (Z.to_nat (Z.of_nat len + i)) else None.

(** [v[k]]. *)
Definition getitem (v k : json) : result json :=
  match v, k with
  | JObj kvs, JStr key =>
      match dict_get key kvs with
      | Some x => Ok x
      | None => Raise KeyError
      end
  | JObj _, JInt _ => Raise KeyError
  | JObj _, _ => Raise TypeError
  | JArr l, JInt i =>
      match seq_index i (length l) with
      | Some n =>
          match nth_error l n with
          | Some x => Ok x
          | None => Raise IndexError
          end
      | None => Raise IndexError
      end
  | JStr str, JInt i =>
      match seq_index i (String.length str) with
      | Some n =>
          match String.get n str with
          | Some c => Ok (JStr (String c EmptyString))
          | None => Raise IndexError
          end
      | None => Raise IndexError
      end
  | _, _ => Raise TypeError
  end.

(** [v[k] = x] with a string key: only a dict accepts it. *)
Definition setitem (v : json) (k : string) (x : json) : result json :=
  match v with
  | JObj kvs => Ok (JObj (dict_set k x kvs))
  | _ => Raise TypeError
  end.

(** [v == z] and [v == s] for an integer and a string on the right. *)
Definition eq_int (v : json) (z : Z) : bool :=
  match v with
  | JInt z' => z' =? z
  | _ => false
  end.

Definition eq_str (v : json) (s : string) : bool :=
  match v with
  | JStr s' => String.eqb s' s
  | _ => false
  end.

(** [k in v]: a key of a dict, an element of a list, a substring of a string. *)
Definition contains (k : string) (v : json) : result bool :=
  match v with
  | JObj kvs => Ok (has_key k kvs)
  | JArr l => Ok (existsb (fun x => eq_str x k) l)
  | JStr str =>
      Ok (match String.index 0 k str with Some _ => true | None => false end)
  | JInt _ => Raise TypeError
  end.

(** [next(iter(v))]: the first key of a dict, the first element of a list,
    the first character of a string. *)
Definition first (v : json) : result json :=
  match v with
  | JObj ((k, _) :: _) => Ok (JStr k)
  | JArr (x :: _) => Ok x
  | JStr (String c _) => Ok (JStr (String c EmptyString))
  | JInt _ => Raise TypeError
  | _ => Raise StopIteration
  end.

(** [v += z] on the value stored under a key. *)
Definition add_int (v : json) (z : Z) : result json :=
  match v with
  | JInt z' => Ok (JInt (z' + z))
  | _ => Raise TypeError
  end.

(** [v.append(x)]. *)
Definition append (v x : json) : result json :=
  match v with
  | JArr l => Ok (JArr (l ++ [x]))
  | _ => Raise AttributeError
  end.

End Py.

(* ===================================================================== *)
(** * Machine state, the outside world, and the monad of the script *)
(* ===================================================================== *)

Module Exec.
Import Json Py.

Inductive file : Type := CURRENT_STATUS_FILE | DAY_DATA_FILE.

#[global] Instance file_eq_dec : EqDecision file.
Proof. solve_decision. Defined.

(** What the script does that is visible from outside: a file it rewrites,
    a call it issues on the collection [door_data]. *)
Inductive event : Type :=
| Wrote (f : file) (txt : string)
| DocSet (id : string) (doc : json)
| DocGet (id : string).

(** A calendar date as [date.today()] returns it. *)
Record date : Type := { year : nat; month : nat; day : nat }.

(** What one firing of a handler reads from outside: the clock, the
    calendar, and which calls on the remote store raise.  The date is read
    once per firing: a firing is taken not to straddle midnight. *)
Record world : Type := {
  now : Z;
  today : date;
  remote_fails : event -> bool
}.

(** [None] for a file that does not exist.  [history] records the events in
    the order they happened, the latest last; the script never reads it. *)
Record state : Type := {
  status_file : option string;
  day_file : option string;
  remote : gmap string json;
  history : list event
}.

Definition contents (f : file) (st : state) : option string :=
  match f with
  | CURRENT_STATUS_FILE => status_file st
  | DAY_DATA_FILE => day_file st
  end.

Definition log (e : event) (st : state) : state :=
  {| status_file := status_file st; day_file := day_file st;
     remote := remote st; history := history st ++ [e] |}.

Definition store (f : file) (txt : string) (st : state) : state :=
  match f with
  | CURRENT_STATUS_FILE =>
      {| status_file := Some txt; day_file := day_file st;
         remote := remote st; history := history st |}
  | DAY_DATA_FILE =>
      {| status_file := status_file st; day_file := Some txt;
         remote := remote st; history := history st |}
  end.

Definition put_doc (id : string) (doc : json) (st : state) : state :=
  {| status_file := status_file st; day_file := day_file st;
     remote := <[id := doc]> (remote st); history := history st |}.

(** A computation runs from a state to a result and a state; what it did
    before raising stays done. *)
Definition M (A : Type) : Type := state -> result A * state.

Definition ret {A} (a : A) : M A := fun st => (Ok a, st).

Definition raise {A} (e : exn) : M A := fun st => (Raise e, st).

Definition bind {A B} (m : M A) (k : A -> M B) : M B :=
  fun st =>
    match m st with
    | (Ok a, st') => k a st'
    | (Raise e, st') => (Raise e, st')
    end.

Definition lift {A} (r : result A) : M A := fun st => (r, st).

(** [try: m  except Exception as e: print(...)]. *)
Definition try_except (m : M unit) : M unit :=
  fun st =>
    match m st with
    | (Ok a, st') => (Ok a, st')
    | (Raise _, st') => (Ok tt, st')
    end.

Declare Scope monad_scope.
Delimit Scope monad_scope with monad.
Notation "x <- m ;; k" := (bind m (fun x => k))
  (at level 100, m at next level, right associativity) : monad_scope.
Notation "m ;;; k" := (bind m (fun _ => k))
  (at level 100, right associativity) : monad_scope.

(** [with open(f, 'r') as file: json.load(file)]. *)
Definition parse_file (c : option string) : result json :=
  match c with
  | None => Raise FileNotFoundError
  | Some txt =>
      match json_load txt with
      | Some v => Ok v
      | None => Raise JSONDecodeError
      end
  end.

Definition load_file (f : file) : M json :=
  fun st => (parse_file (contents f st), st).

(** [with open(f, 'w') as file: json.dump(v, file)]. *)
Definition dump_file (f : file) (v : json) : M unit :=
  fun st => (Ok tt, log (Wrote f (json_dump v)) (store f (json_dump v) st)).

End Exec.

(* ===================================================================== *)
(** * The script *)
(* ===================================================================== *)

Module Monitor.
Import Json Py Exec.

Local Open Scope string_scope.
Local Open Scope Z_scope.
Local Open Scope monad_scope.

Definition digit_char (n : nat) : ascii := ascii_of_nat (48 + n mod 10)%nat.

(** [d.strftime('%Y-%m-%d')]. *)
Definition strftime_Ymd (d : date) : string :=
  string_of_list_ascii
    [digit_char (year d / 1000); digit_char (year d / 100);
     digit_char (year d / 10); digit_char (year d); "-"%char;
     digit_char (month d / 10); digit_char (month d); "-"%char;
     digit_char (day d / 10); digit_char (day d)]%nat.

Section Handlers.

Variable w : world.

Definition get_timestamp : Z := now w.

Definition get_today_date : string := strftime_Ymd (today w).

Definition get_day_data : M json := load_file DAY_DATA_FILE.

Definition get_status_data : M json := load_file CURRENT_STATUS_FILE.

(** [db.collection("door_data").document(id).set(doc)]: [document] wants a
    string; the call is recorded, then raises or writes the document. *)
Definition doc_set (id doc : json) : M unit :=
  match id with
  | JStr name =>
      fun st =>
        let st' := log (DocSet name doc) st in
        if remote_fails w (DocSet name doc) then (Raise RemoteError, st')
        else (Ok tt, put_doc name doc st')
  | _ => raise TypeError
  end.

(** [db.collection("door_data").document(id).get().exists]. *)
Definition doc_exists (id : json) : M bool :=
  match id with
  | JStr name =>
      fun st =>
        let st' := log (DocGet name) st in
        if remote_fails w (DocGet name) then (Raise RemoteError, st')
        else (Ok (match remote st !! name with Some _ => true | None => false end), st')
  | _ => raise TypeError
  end.

Definition current_openings_to_json : M unit :=
  status_data <- get_status_data ;;
  opened <- lift (getitem status_data (JStr "lastOpened")) ;;
  closed <- lift (getitem status_data (JStr "lastClosed")) ;;
  let new_entry := JObj [("opened", opened); ("closed", closed)] in
  day_data <- get_day_data ;;
  let today := get_today_date in
  present <- lift (contains today day_data) ;;
  if present : bool then
    entry <- lift (getitem day_data (JStr today)) ;;
    num <- lift (getitem entry (JStr "numOfOpenings")) ;;
    num' <- lift (add_int num 1) ;;
    entry <- lift (setitem entry "numOfOpenings" num') ;;
    opens <- lift (getitem entry (JStr "openings")) ;;
    opens' <- lift (append opens new_entry) ;;
    entry <- lift (setitem entry "openings" opens') ;;
    day_data <- lift (setitem day_data today entry) ;;
    dump_file DAY_DATA_FILE day_data
  else
    dump_file DAY_DATA_FILE
      (JObj [(today, JObj [("numOfOpenings", JInt 1);
                           ("openings", JArr [new_entry])])]).

Definition status_to_firebase : M unit :=
  try_except (
    status_data <- get_status_data ;;
    isOpen <- lift (getitem status_data (JStr "isOpen")) ;;
    lastOpened <- lift (getitem status_data (JStr "lastOpened")) ;;
    lastClosed <- lift (getitem status_data (JStr "lastClosed")) ;;
    doc_set (JStr "current_status")
      (JObj [("isOpen", isOpen); ("lastOpened", lastOpened);
             ("lastClosed", lastClosed)])).

Definition send_full_data_to_db : M unit :=
  try_except (
    day_data <- get_day_data ;;
    date_id <- lift (first day_data) ;;
    entry <- lift (getitem day_data date_id) ;;
    numOfOpens <- lift (getitem entry (JStr "numOfOpenings")) ;;
    entry <- lift (getitem day_data date_id) ;;
    opens <- lift (getitem entry (JStr "openings")) ;;
    doc_set date_id
      (JObj [("num_of_openings", numOfOpens); ("openings", opens)])).

Definition update_status (status : Z) : M unit :=
  status_data <- get_status_data ;;
  isOpen <- lift (getitem status_data (JStr "isOpen")) ;;
  if eq_int isOpen status then ret tt
  else
    status_data <- lift (setitem status_data "isOpen" (JInt status)) ;;
    status_data <-
      lift (if status =? 0
            then setitem status_data "lastClosed" (JInt get_timestamp)
            else setitem status_data "lastOpened" (JInt get_timestamp)) ;;
    dump_file CURRENT_STATUS_FILE status_data ;;;
    (if status =? 0 then
       lastOpened <- lift (getitem status_data (JStr "lastOpened")) ;;
       if negb (eq_int lastOpened 0) then
         day_data <- get_day_data ;;
         let today := get_today_date in
         date_id <- lift (first day_data) ;;
         (if negb (eq_str date_id today) then send_full_data_to_db else ret tt) ;;;
         current_openings_to_json
       else ret tt
     else ret tt) ;;;
    status_to_firebase.

Definition new_day_is_here : M unit :=
  try_except (
    day_data <- get_day_data ;;
    date_id <- lift (first day_data) ;;
    already <- doc_exists date_id ;;
    if already : bool then ret tt
    else
      send_full_data_to_db ;;;
      dump_file DAY_DATA_FILE
        (JObj [(get_today_date, JObj [("numOfOpenings", JInt 0);
                                      ("openings", JArr [])])])).

(** The file is missing or empty:
    [not Path(f).exists() or Path(f).stat().st_size == 0]. *)
Definition missing_or_empty (f : file) (st : state) : bool :=
  match contents f st with
  | None => true
  | Some txt => String.eqb txt EmptyString
  end.

Definition init_current_status : M unit :=
  fun st =>
    if missing_or_empty CURRENT_STATUS_FILE st then
      dump_file CURRENT_STATUS_FILE
        (JObj [("isOpen", JInt 0); ("lastOpened", JInt 0); ("lastClosed", JInt 0)]) st
    else (Ok tt, st).

Definition init_day_data : M unit :=
  fun st =>
    if missing_or_empty DAY_DATA_FILE st then
      dump_file DAY_DATA_FILE
        (JObj [(get_today_date, JObj [("numOfOpenings", JInt 0);
                                      ("openings", JArr [])])]) st
    else (Ok tt, st).

End Handlers.

(** ** The records of the data model, and the JSON that holds them *)

Record CurrentStatus : Type := {
  isOpen : Z;
  lastOpened : Z;
  lastClosed : Z
}.

Record Episode : Type := { opened : Z; closed : Z }.

Record DayAggregate : Type := {
  date_key : string;
  numOfOpenings : Z;
  openings : list Episode
}.

Definition status_json (c : CurrentStatus) : json :=
  JObj [("isOpen", JInt (isOpen c)); ("lastOpened", JInt (lastOpened c));
        ("lastClosed", JInt (lastClosed c))].

Definition episode_json (e : Episode) : json :=
  JObj [("opened", JInt (opened e)); ("closed", JInt (closed e))].

Definition day_json (a : DayAggregate) : json :=
  JObj [(date_key a,
         JObj [("numOfOpenings", JInt (numOfOpenings a));
               ("openings", JArr (map episode_json (openings a)))])].

(** The document [send_full_data_to_db] stores for an aggregate. *)
Definition day_doc (a : DayAggregate) : json :=
  JObj [("num_of_openings", JInt (numOfOpenings a));
        ("openings", JArr (map episode_json (openings a)))].

(** The aggregate a new day starts from. *)
Definition fresh_day (d : string) : DayAggregate :=
  {| date_key := d; numOfOpenings := 0; openings := [] |}.

End Monitor.

(* ===================================================================== *)
(** * Vocabulary of the statements *)
(* ===================================================================== *)

Module Props.
Import Json Py Exec Monitor.

Local Open Scope string_scope.
Local Open Scope Z_scope.

(** File [f] holds text that [json.load] reads as [v]. *)
Definition reads (f : file) (v : json) (st : state) : Prop :=
  parse_file (contents f st) = Ok v.

(** The state after [json.dump(v)] into [f]. *)
Definition after_write (f : file) (v : json) (st : state) : state :=
  log (Wrote f (json_dump v)) (store f (json_dump v) st).

(** The state after the call [document(id).set(doc)], raised or not. *)
Definition after_set (w : world) (id : string) (doc : json) (st : state) : state :=
  if remote_fails w (DocSet id doc) then log (DocSet id doc) st
  else put_doc id doc (log (DocSet id doc) st).

(** The local part of a state: the two files. *)
Definition local (st : state) : option string * option string :=
  (status_file st, day_file st).

(** A computation that leaves the two files as they are, whatever it
    returns or raises. *)
Definition keeps_files {A} (m : M A) : Prop :=
  forall st, local (snd (m st)) = local st.

(** The same clock and calendar, and a remote store that never fails. *)
Definition healthy (w : world) : world :=
  {| now := now w; today := today w; remote_fails := fun _ => false |}.

(** The upserts recorded in a history, in order. *)
Fixpoint upserts (h : list event) : list (string * json) :=
  match h with
  | [] => []
  | DocSet id doc :: h' => (id, doc) :: upserts h'
  | _ :: h' => upserts h'
  end.

(** [num_openings == length(openings)]. *)
Definition counts_match (a : DayAggregate) : Prop :=
  numOfOpenings a = Z.of_nat (length (openings a)).

(** The day file holds one aggregate, whose count matches its episodes. *)
Definition day_invariant (st : state) : Prop :=
  exists a, reads DAY_DATA_FILE (day_json a) st /\ counts_match a.

(** The episode a closing edge completes. *)
Definition episode_of (c : CurrentStatus) : Episode :=
  {| opened := lastOpened c; closed := lastClosed c |}.

(** An aggregate with one more episode. *)
Definition with_episode (a : DayAggregate) (e : Episode) : DayAggregate :=
  {| date_key := date_key a; numOfOpenings := numOfOpenings a + 1;
     openings := openings a ++ [e] |}.

(** The status record after an edge to [status] at time [t]. *)
Definition after_edge (status t : Z) (c : CurrentStatus) : CurrentStatus :=
  if status =? 0
  then {| isOpen := status; lastOpened := lastOpened c; lastClosed := t |}
  else {| isOpen := status; lastOpened := t; lastClosed := lastClosed c |}.

(** Dates are compared as their [yyyy-mm-dd] strings. *)
Definition date_lt (d1 d2 : string) : Prop := String.ltb d1 d2 = true.

End Props.

(* ===================================================================== *)
(** * Sample machines *)
(* ===================================================================== *)

Module Examples.
Import Json Py Exec Monitor Props.

Local Open Scope string_scope.
Local Open Scope Z_scope.

Definition on (y m d : nat) : date := {| year := y; month := m; day := d |}.

(** A firing on day [d] at second [t], with the remote store within reach,
    and one with every remote call failing. *)
Definition online (d : date) (t : Z) : world :=
  {| now := t; today := d; remote_fails := fun _ => false |}.

Definition offline (d : date) (t : Z) : world :=
  {| now := t; today := d; remote_fails := fun _ => true |}.

(** A machine whose files hold [c] and [a], as the script writes them. *)
Definition machine (c : CurrentStatus) (a : DayAggregate)
    (r : gmap string json) : state :=
  {| status_file := Some (json_dump (status_json c));
     day_file := Some (json_dump (day_json a));
     remote := r; history := [] |}.

Definition never_opened : CurrentStatus :=
  {| isOpen := 0; lastOpened := 0; lastClosed := 0 |}.

Definition door_closed : CurrentStatus :=
  {| isOpen := 0; lastOpened := 1704096000; lastClosed := 1704099600 |}.

Definition door_open : CurrentStatus :=
  {| isOpen := 1; lastOpened := 1704110400; lastClosed := 1704099600 |}.

(** Recorded open, with no opening time on record. *)
Definition open_unrecorded : CurrentStatus :=
  {| isOpen := 1; lastOpened := 0; lastClosed := 0 |}.

Definition jan1 : DayAggregate :=
  {| date_key := "2024-01-01"; numOfOpenings := 1;
     openings := [{| opened := 1704096000; closed := 1704099600 |}] |}.

Definition epoch_day : DayAggregate :=
  {| date_key := "1970-01-01"; numOfOpenings := 0; openings := [] |}.

(** A machine that has never run: no file, nothing stored remotely. *)
Definition blank : state :=
  {| status_file := None; day_file := None; remote := ∅; history := [] |}.

End Examples.

(* ===================================================================== *)
(** * The script as a whole: start-up and the callbacks *)
(* ===================================================================== *)

Module Program.
Import Json Py Exec Monitor Props.

Local Open Scope string_scope.
Local Open Scope Z_scope.
Local Open Scope monad_scope.

(** The start-up code that creates the two files, in the order of the
    script. *)
Definition startup (w : world) : M unit :=
  init_current_status ;;; init_day_data w.

(** What calls into the script once it waits in [pause()]: the two button
    handlers and the scheduled job. *)
Inductive trigger : Type := Released | Pressed | Timer.

(** [door_button.when_released = lambda: update_status(1)],
    [door_button.when_pressed = lambda: update_status(0)],
    [scheduler.add_job(new_day_is_here, 'cron', hour=0, minute=1)]. *)
Definition fire (w : world) (tr : trigger) : M unit :=
  match tr with
  | Released => update_status w 1
  | Pressed => update_status w 0
  | Timer => new_day_is_here w
  end.

(** A sequence of firings, one after the other, each with the world it
    sees.  Firings are taken not to overlap.  An exception that leaves a
    callback ends that callback only: the state it reached stays. *)
Fixpoint run (evs : list (world * trigger)) (st : state) : state :=
  match evs with
  | [] => st
  | (w, tr) :: evs' => run evs' (snd (fire w tr st))
  end.

(** A computation that leaves the status file as it is, whatever it
    returns or raises. *)
Definition keeps_status {A} (m : M A) : Prop :=
  forall st, status_file (snd (m st)) = status_file st.

(** Both files hold what the script expects: a status record with [isOpen]
    0 or 1, and one aggregate whose count matches its episodes, each with
    an opening time on record. *)
Definition tidy (st : state) : Prop :=
  exists c a,
    reads CURRENT_STATUS_FILE (status_json c) st
    /\ reads DAY_DATA_FILE (day_json a) st
    /\ (isOpen c = 0 \/ isOpen c = 1)
    /\ counts_match a
    /\ Forall (fun e => opened e <> 0) (openings a).

(** Nothing on file is later than [t], and no episode closes before it
    opens. *)
Definition timely (t : Z) (st : state) : Prop :=
  exists c a,
    reads CURRENT_STATUS_FILE (status_json c) st
    /\ reads DAY_DATA_FILE (day_json a) st
    /\ lastOpened c <= t
    /\ Forall (fun e => opened e <= closed e) (openings a).

(** The clock never goes back: each firing reads a time no earlier than
    the one before, starting from [t]. *)
Fixpoint clock_from (t : Z) (evs : list (world * trigger)) : Prop :=
  match evs with
  | [] => True
  | (w, _) :: evs' => t <= now w /\ clock_from (now w) evs'
  end.

(** A visit: the door opens in one world and closes in another. *)
Definition visit_edges (v : world * world) : list (world * trigger) :=
  [(fst v, Released); (snd v, Pressed)].

Definition visit_episode (v : world * world) : Episode :=
  {| opened := now (fst v); closed := now (snd v) |}.

(** An aggregate with the episodes of some more visits. *)
Definition with_visits (a : DayAggregate) (vs : list (world * world)) : DayAggregate :=
  {| date_key := date_key a;
     numOfOpenings := numOfOpenings a + Z.of_nat (length vs);
     openings := (openings a ++ map visit_episode vs)%list |}.

(** A calendar date [date.today()] can return. *)
Definition calendar (d : date) : Prop :=
  Z.of_nat (year d) < 10000 /\ Z.of_nat (month d) < 100 /\ Z.of_nat (day d) < 100.

End Program.

(* ===================================================================== *)
(** * Reading back what [json.dump] wrote *)
(* ===================================================================== *)

Module JsonFacts.
Import Json.

(** Induction principle that reaches the values nested in arrays and objects. *)
Lemma json_nested_ind (P : json -> Prop)
  (HInt : forall z, P (JInt z))
  (HStr : forall s, P (JStr s))
  (HArr : forall l, Forall P l -> P (JArr l))
  (HObj : forall kvs, Forall (fun kv => P (snd kv)) kvs -> P (JObj kvs)) :
  forall v, P v.
Proof.
  fix IH 1. intros [z|s|l|kvs].
  - apply HInt.
  - apply HStr.
  - apply HArr. induction l as [|x l IHl]; constructor; [apply IH | exact IHl].
  - apply HObj. induction kvs as [|[k x] kvs IHl]; constructor;
      [apply IH | exact IHl].
Qed.

(** ** Characters *)

Ltac by_cases_on_char c :=
  destruct c as [[|] [|] [|] [|] [|] [|] [|] [|]];
  try reflexivity; try discriminate.

Lemma digit_not_minus c : is_digit c = true -> Ascii.eqb c "-"%char = false.
Proof. by_cases_on_char c. Qed.

Lemma digit_value_start c : is_digit c = true -> value_start c = true.
Proof. by_cases_on_char c. Qed.

Lemma value_start_not_ws c : value_start c = true -> is_ws c = false.
Proof. by_cases_on_char c. Qed.

Lemma value_start_not_close c :
  value_start c = true ->
  Ascii.eqb c "]"%char = false /\ Ascii.eqb c "}"%char = false.
Proof. by_cases_on_char c; intros _; split; reflexivity. Qed.

Lemma number_start c :
  is_digit c || Ascii.eqb c "-"%char = true ->
  Ascii.eqb c "["%char = false /\ Ascii.eqb c "{"%char = false
  /\ Ascii.eqb c dquote = false /\ is_ws c = false.
Proof. by_cases_on_char c; intros _; repeat split; reflexivity. Qed.

Lemma plain_not_quote c : plain_char c = true -> Ascii.eqb c dquote = false.
Proof. by_cases_on_char c. Qed.

Lemma skip_ws_start c s : is_ws c = false -> skip_ws (c :: s) = c :: s.
Proof. intros H. simpl. now rewrite H. Qed.

(** ** Integers *)

Lemma uint_digits d :
  forallb is_digit (list_ascii_of_string (NilEmpty.string_of_uint d)) = true.
Proof. induction d; simpl; auto. Qed.

Lemma span_digits_app ds rest :
  forallb is_digit ds = true -> no_digit_head rest = true ->
  span_digits (ds ++ rest) = (ds, rest).
Proof.
  intros Hds Hrest. induction ds as [|c ds IH].
  - destruct rest as [|c rest]; [reflexivity|].
    cbn [no_digit_head] in Hrest. apply negb_true_iff in Hrest.
    cbn [app span_digits]. now rewrite Hrest.
  - cbn [forallb] in Hds. apply andb_true_iff in Hds as [Hc Hds].
    cbn [app span_digits]. rewrite Hc, (IH Hds). reflexivity.
Qed.

Lemma uint_nonempty d :
  d <> Decimal.Nil ->
  exists c cs, list_ascii_of_string (NilEmpty.string_of_uint d) = c :: cs
               /\ is_digit c = true.
Proof.
  intros Hd. pose proof (uint_digits d) as Hall.
  destruct d; try congruence; simpl in *; eexists _, _; split; reflexivity.
Qed.

Lemma pos_no_leading_zero p d' : Pos.to_uint p <> Decimal.D0 d'.
Proof.
  intros E.
  pose proof (DecimalPos.Unsigned.to_of (Pos.to_uint p)) as H.
  rewrite DecimalPos.Unsigned.of_to in H. cbn [N.to_uint] in H.
  rewrite E in H. unfold Decimal.unorm in H. cbn [Decimal.nzhead] in H.
  destruct (Decimal.nzhead d') eqn:Hn; try discriminate.
  - injection H as ->. now apply (DecimalPos.Unsigned.to_uint_nonzero p).
  - now apply (DecimalFacts.nzhead_nonzero d' u).
Qed.

Lemma to_int_shape z :
  exists d, d <> Decimal.Nil
            /\ (d = Decimal.D0 Decimal.Nil \/ forall d', d <> Decimal.D0 d')
            /\ (Z.to_int z = Decimal.Pos d \/ Z.to_int z = Decimal.Neg d).
Proof.
  destruct z as [|p|p]; simpl.
  - exists (Decimal.D0 Decimal.Nil). split; [discriminate | split; now left].
  - exists (Pos.to_uint p).
    split; [apply DecimalPos.Unsigned.to_uint_nonnil | split; [right | now left]].
    intros d'. apply pos_no_leading_zero.
  - exists (Pos.to_uint p).
    split; [apply DecimalPos.Unsigned.to_uint_nonnil | split; [right | now right]].
    intros d'. apply pos_no_leading_zero.
Qed.

Lemma uint_no_leading_zero d :
  d = Decimal.D0 Decimal.Nil \/ (forall d', d <> Decimal.D0 d') ->
  leading_zero (list_ascii_of_string (NilEmpty.string_of_uint d)) = false.
Proof.
  intros [-> | H]; [reflexivity|].
  destruct d as [|d|d|d|d|d|d|d|d|d|d]; try reflexivity;
    try (now destruct d); now destruct (H d).
Qed.

Lemma parse_int_dump z rest :
  no_digit_head rest = true -> parse_int (dump_int z ++ rest) = Some (z, rest).
Proof.
  intros Hrest. unfold dump_int.
  pose proof (DecimalZ.of_to z) as Hz.
  pose proof (NilEmpty.isi (Z.to_int z)) as Hisi.
  destruct (to_int_shape z) as (d & Hd & Hlz & [E|E]); rewrite E in *;
    destruct (uint_nonempty d Hd) as (c & cs & Hcs & Hc);
    pose proof (uint_digits d) as Hall;
    apply uint_no_leading_zero in Hlz; simpl NilEmpty.string_of_int in *.
  - rewrite Hcs in *. unfold parse_int. cbn [app]. cbv beta iota.
    rewrite (digit_not_minus c Hc).
    change (c :: cs ++ rest) with ((c :: cs) ++ rest).
    rewrite (span_digits_app _ _ Hall Hrest), Hlz. cbn [app].
    rewrite <- Hcs, string_of_list_ascii_of_string, Hisi, Hz. reflexivity.
  - cbn [list_ascii_of_string]. unfold parse_int. cbn [app]. cbv beta iota.
    change (Ascii.eqb "-" "-") with true. cbv beta iota.
    rewrite (span_digits_app _ _ Hall Hrest). rewrite Hcs. cbv beta iota.
    rewrite <- Hcs, Hlz.
    change (["-"%char] ++ list_ascii_of_string (NilEmpty.string_of_uint d))
      with (list_ascii_of_string (String "-" (NilEmpty.string_of_uint d))).
    rewrite string_of_list_ascii_of_string, Hisi, Hz. reflexivity.
Qed.

Lemma dump_int_start z :
  exists c cs, dump_int z = c :: cs /\ is_digit c || Ascii.eqb c "-"%char = true.
Proof.
  unfold dump_int. destruct (to_int_shape z) as (d & Hd & _ & [E|E]); rewrite E.
  - destruct (uint_nonempty d Hd) as (c & cs & Hcs & Hc). simpl. rewrite Hcs.
    exists c, cs. now rewrite Hc.
  - simpl. eexists _, _. split; reflexivity.
Qed.

(** ** Strings *)

Lemma parse_str_body_plain cs rest :
  forallb plain_char cs = true ->
  parse_str_body (cs ++ dquote :: rest) = Some (cs, rest).
Proof.
  intros H. induction cs as [|c cs IH].
  - reflexivity.
  - cbn [forallb] in H. apply andb_true_iff in H as [Hc Hcs].
    cbn [app parse_str_body].
    rewrite (plain_not_quote c Hc), Hc, (IH Hcs). reflexivity.
Qed.

Lemma skip_ws_dump_str s rest : skip_ws (dump_str s ++ rest) = dump_str s ++ rest.
Proof. reflexivity. Qed.

Lemma parse_str_dump s rest :
  plain s = true -> parse_str (dump_str s ++ rest) = Some (s, rest).
Proof.
  intros H. unfold dump_str, parse_str. simpl.
  rewrite <- app_assoc. simpl.
  rewrite (parse_str_body_plain _ _ H), string_of_list_ascii_of_string.
  reflexivity.
Qed.

(** ** Dictionaries *)

Lemma has_key_app k d1 d2 : has_key k (d1 ++ d2) = has_key k d1 || has_key k d2.
Proof.
  induction d1 as [|[k' x] d1 IH]; simpl; [reflexivity|].
  rewrite IH. now rewrite orb_assoc.
Qed.

Lemma dict_set_fresh k x d : has_key k d = false -> dict_set k x d = d ++ [(k, x)].
Proof.
  induction d as [|[k' x'] d IH]; simpl; [reflexivity|].
  intros H. apply orb_false_iff in H as [Hk Hd]. rewrite Hk, (IH Hd). reflexivity.
Qed.

Lemma nodup_keys_app_fresh d k x kvs :
  nodup_keys (d ++ (k, x) :: kvs) = true -> has_key k d = false.
Proof.
  induction d as [|[k' x'] d IH]; simpl; [reflexivity|].
  intros H. apply andb_true_iff in H as [Hk Hd].
  rewrite (IH Hd), orb_false_r.
  apply negb_true_iff in Hk. rewrite has_key_app in Hk. simpl in Hk.
  apply orb_false_iff in Hk as [_ Hk]. apply orb_false_iff in Hk as [Hk _].
  rewrite String.eqb_sym. exact Hk.
Qed.

Lemma dict_of_members_from d kvs :
  nodup_keys (d ++ kvs) = true ->
  fold_left (fun d kv => dict_set (fst kv) (snd kv) d) kvs d = d ++ kvs.
Proof.
  revert d. induction kvs as [|[k x] kvs IH]; intros d H; simpl.
  - now rewrite app_nil_r.
  - rewrite (dict_set_fresh k x d (nodup_keys_app_fresh _ _ _ _ H)).
    rewrite IH; rewrite <- app_assoc; [reflexivity | exact H].
Qed.

Lemma dict_of_members_nodup kvs :
  nodup_keys kvs = true -> dict_of_members kvs = kvs.
Proof. intros H. apply (dict_of_members_from [] kvs H). Qed.

(** ** Values *)

Lemma dump_arr l : dump (JArr l) = "["%char :: dump_elems l.
Proof. reflexivity. Qed.

Lemma dump_obj kvs : dump (JObj kvs) = "{"%char :: dump_members kvs.
Proof. reflexivity. Qed.

Lemma dump_start v : exists c cs, dump v = c :: cs /\ value_start c = true.
Proof.
  destruct v as [z|s|l|kvs].
  - destruct (dump_int_start z) as (c & cs & E & Hc). exists c, cs. split; [exact E|].
    unfold value_start. destruct (is_digit c); [reflexivity|].
    cbn [orb] in Hc |- *. now rewrite Hc.
  - eexists _, _. split; reflexivity.
  - rewrite dump_arr. eexists _, _. split; reflexivity.
  - rewrite dump_obj. eexists _, _. split; reflexivity.
Qed.

Lemma parse_value_S n s :
  parse_value (S n) s =
  match skip_ws s with
  | [] => None
  | c :: r =>
      if Ascii.eqb c "["%char then
        match skip_ws r with
        | [] => None
        | c' :: r' =>
            if Ascii.eqb c' "]"%char then Some (JArr [], r')
            else
              match parse_elems n (c' :: r') with
              | Some (l, r'') => Some (JArr l, r'')
              | None => None
              end
        end
      else if Ascii.eqb c "{"%char then
        match skip_ws r with
        | [] => None
        | c' :: r' =>
            if Ascii.eqb c' "}"%char then Some (JObj [], r')
            else
              match parse_members n (c' :: r') with
              | Some (kvs, r'') => Some (JObj (dict_of_members kvs), r'')
              | None => None
              end
        end
      else if Ascii.eqb c dquote then
        match parse_str (c :: r) with
        | Some (str, r') => Some (JStr str, r')
        | None => None
        end
      else
        match parse_int (c :: r) with
        | Some (z, r') => Some (JInt z, r')
        | None => None
        end
  end.
Proof. reflexivity. Qed.

Lemma parse_elems_S n s :
  parse_elems (S n) s =
  match parse_value n s with
  | Some (x, r) =>
      match skip_ws r with
      | [] => None
      | c :: r' =>
          if Ascii.eqb c ","%char then
            match parse_elems n r' with
            | Some (l, r'') => Some (x :: l, r'')
            | None => None
            end
          else if Ascii.eqb c "]"%char then Some ([x], r')
          else None
      end
  | None => None
  end.
Proof. reflexivity. Qed.

Lemma parse_members_S n s :
  parse_members (S n) s =
  match parse_str (skip_ws s) with
  | Some (k, r) =>
      match skip_ws r with
      | [] => None
      | c :: r1 =>
          if Ascii.eqb c ":"%char then
            match parse_value n r1 with
            | Some (x, r2) =>
                match skip_ws r2 with
                | [] => None
                | c' :: r3 =>
                    if Ascii.eqb c' ","%char then
                      match parse_members n r3 with
                      | Some (kvs, r4) => Some ((k, x) :: kvs, r4)
                      | None => None
                      end
                    else if Ascii.eqb c' "}"%char then Some ([(k, x)], r3)
                    else None
                end
            | None => None
            end
          else None
      end
  | None => None
  end.
Proof. reflexivity. Qed.

Lemma parse_value_space n s : parse_value n (" "%char :: s) = parse_value n s.
Proof. destruct n; reflexivity. Qed.

Lemma parse_elems_space n s : parse_elems n (" "%char :: s) = parse_elems n s.
Proof. destruct n; [reflexivity|]. now rewrite !parse_elems_S, parse_value_space. Qed.

Lemma parse_members_space n s : parse_members n (" "%char :: s) = parse_members n s.
Proof. destruct n; reflexivity. Qed.

(** [v] is read back from its text, whatever follows it. *)
Definition reads_back (v : json) : Prop :=
  wf v = true ->
  forall n rest, (need v <= n)%nat -> no_digit_head rest = true ->
  parse_value n (dump v ++ rest) = Some (v, rest).

Lemma parse_elems_dump l :
  Forall reads_back l -> forallb wf l = true -> l <> [] ->
  forall n rest, (need_elems l <= n)%nat ->
  parse_elems n (dump_elems l ++ rest) = Some (l, rest).
Proof.
  induction 1 as [|x l Hx Hl IH]; [congruence|].
  intros Hwf _ n rest Hn.
  cbn [forallb] in Hwf. apply andb_true_iff in Hwf as [Hwx Hwl].
  cbn [need_elems fold_right] in Hn. fold (need_elems l) in Hn.
  destruct n as [|n]; [lia|].
  rewrite parse_elems_S. cbn [dump_elems]. rewrite <- !app_assoc.
  destruct l as [|y l'].
  - rewrite (Hx Hwx); [reflexivity | lia | reflexivity].
  - rewrite (Hx Hwx); [| lia | reflexivity].
    cbn [item_sep app skip_ws]. change (is_ws ","%char) with false. cbv beta iota.
    change (Ascii.eqb "," ",") with true. cbv beta iota.
    rewrite parse_elems_space, IH; [reflexivity | exact Hwl | congruence |].
    cbn [need_elems fold_right] in *. lia.
Qed.

Lemma parse_members_dump kvs :
  Forall (fun kv => reads_back (snd kv)) kvs ->
  forallb (fun kv => plain (fst kv) && wf (snd kv)) kvs = true -> kvs <> [] ->
  forall n rest, (need_members kvs <= n)%nat ->
  parse_members n (dump_members kvs ++ rest) = Some (kvs, rest).
Proof.
  induction 1 as [|[k x] kvs Hx Hl IH]; [congruence|].
  intros Hwf _ n rest Hn.
  cbn [forallb fst snd] in Hwf. apply andb_true_iff in Hwf as [Hwx Hwl].
  apply andb_true_iff in Hwx as [Hk Hwx].
  cbn [need_members fold_right snd] in Hn. fold (need_members kvs) in Hn.
  destruct n as [|n]; [lia|].
  rewrite parse_members_S. cbn [dump_members]. rewrite <- !app_assoc.
  rewrite skip_ws_dump_str, (parse_str_dump k _ Hk).
  cbn [app skip_ws]. change (is_ws ":"%char) with false. cbv beta iota.
  change (Ascii.eqb ":" ":") with true. cbv beta iota.
  rewrite parse_value_space. cbn [snd] in Hx.
  destruct kvs as [|[k' y] kvs'].
  - rewrite (Hx Hwx); [reflexivity | lia | reflexivity].
  - rewrite (Hx Hwx); [| lia | reflexivity].
    cbn [item_sep app skip_ws]. change (is_ws ","%char) with false. cbv beta iota.
    change (Ascii.eqb "," ",") with true. cbv beta iota.
    rewrite parse_members_space, IH; [reflexivity | exact Hwl | congruence |].
    cbn [need_members fold_right] in *. lia.
Qed.

(** Every well-formed value is read back from its text. *)
Lemma parse_value_dump v : reads_back v.
Proof.
  induction v as [z|s|l IH|kvs IH] using json_nested_ind;
    intros Hwf n rest Hn Hrest; (destruct n as [|n]; [cbn [need] in Hn; lia|]);
    rewrite parse_value_S.
  - destruct (dump_int_start z) as (c & cs & E & Hc).
    destruct (number_start c Hc) as (H1 & H2 & H3 & H4).
    cbn [dump]. rewrite E. cbn [app]. rewrite (skip_ws_start _ _ H4), H1, H2, H3.
    change (c :: cs ++ rest) with ((c :: cs) ++ rest). rewrite <- E.
    now rewrite (parse_int_dump z rest Hrest).
  - cbn [dump]. unfold dump_str at 1. cbn [app].
    rewrite skip_ws_start by reflexivity.
    change (Ascii.eqb dquote "[") with false. change (Ascii.eqb dquote "{") with false.
    change (Ascii.eqb dquote dquote) with true. cbv beta iota.
    change (dquote :: (list_ascii_of_string s ++ [dquote]) ++ rest)
      with (dump_str s ++ rest).
    now rewrite (parse_str_dump s rest Hwf).
  - rewrite dump_arr. cbn [app]. rewrite skip_ws_start by reflexivity.
    change (Ascii.eqb "[" "[") with true. cbv beta iota.
    cbn [wf] in Hwf. cbn [need] in Hn. fold (need_elems l) in Hn.
    destruct l as [|x l'].
    + reflexivity.
    + pose proof (parse_elems_dump (x :: l') IH Hwf ltac:(congruence) n rest
                    ltac:(lia)) as Hp.
      destruct (dump_start x) as (c & cs & E & Hc).
      destruct (value_start_not_close c Hc) as [Hc1 Hc2].
      cbn [dump_elems] in Hp |- *. rewrite E in Hp |- *. cbn [app] in Hp |- *.
      rewrite (skip_ws_start _ _ (value_start_not_ws c Hc)), Hc1, Hp. reflexivity.
  - rewrite dump_obj. cbn [app]. rewrite skip_ws_start by reflexivity.
    change (Ascii.eqb "{" "[") with false. change (Ascii.eqb "{" "{") with true.
    cbv beta iota.
    cbn [wf] in Hwf. apply andb_true_iff in Hwf as [Hwf Hnd].
    cbn [need] in Hn. fold (need_members kvs) in Hn.
    destruct kvs as [|[k x] kvs'].
    + reflexivity.
    + pose proof (parse_members_dump ((k, x) :: kvs') IH Hwf ltac:(congruence) n
                    rest ltac:(lia)) as Hp.
      cbn [dump_members] in Hp |- *. unfold dump_str at 1 in Hp.
      unfold dump_str at 1. cbn [app] in Hp |- *.
      rewrite skip_ws_start by reflexivity.
      change (Ascii.eqb dquote "}") with false. cbv beta iota.
      rewrite Hp, (dict_of_members_nodup _ Hnd). reflexivity.
Qed.

Lemma need_le_dump v : (need v <= length (dump v))%nat.
Proof.
  induction v as [z|s|l IH|kvs IH] using json_nested_ind.
  - destruct (dump_int_start z) as (c & cs & E & _). cbn [dump need].
    rewrite E. cbn [length]. lia.
  - cbn [dump need]. unfold dump_str. cbn [length]. lia.
  - rewrite dump_arr. cbn [need length]. apply le_n_S.
    induction IH as [|x l Hx _ IHl]; cbn [fold_right dump_elems]; [lia|].
    rewrite !length_app.
    destruct l; cbn [fold_right dump_elems item_sep length] in *; lia.
  - rewrite dump_obj. cbn [need length]. apply le_n_S.
    induction IH as [|[k x] kvs Hx _ IHl]; cbn [fold_right dump_members]; [lia|].
    cbn [snd] in *. rewrite !length_app. cbn [length].
    destruct kvs as [|kv kvs];
      cbn [fold_right dump_members item_sep length] in *; lia.
Qed.

(** [json.load] returns the value [json.dump] wrote. *)
Lemma json_load_dump v : wf v = true -> json_load (json_dump v) = Some v.
Proof.
  intros Hwf. unfold json_load, json_dump.
  rewrite list_ascii_of_string_of_list_ascii.
  pose proof (parse_value_dump v Hwf (S (length (dump v))) []) as Hp.
  rewrite app_nil_r in Hp. rewrite Hp; [reflexivity | | reflexivity].
  pose proof (need_le_dump v). lia.
Qed.

End JsonFacts.

(* ===================================================================== *)
(** * Running the script *)
(* ===================================================================== *)

Module MonitorFacts.
Import Json Py Exec Monitor Props JsonFacts.

Local Open Scope string_scope.
Local Open Scope Z_scope.
Local Open Scope list_scope.

#[local] Arguments json_dump : simpl never.
#[local] Arguments json_load : simpl never.

(** ** Well-formed values *)

Lemma wf_status c : wf (status_json c) = true.
Proof. reflexivity. Qed.

Lemma wf_episodes l : forallb wf (map episode_json l) = true.
Proof. induction l as [|e l IH]; [reflexivity|]. cbn [map forallb]. now rewrite IH. Qed.

Lemma wf_day a : plain (date_key a) = true -> wf (day_json a) = true.
Proof.
  intros H. unfold day_json. cbn [wf forallb fst snd nodup_keys has_key negb andb].
  rewrite H, wf_episodes. reflexivity.
Qed.

Lemma plain_digit n : plain_char (digit_char n) = true.
Proof.
  unfold digit_char. pose proof (Nat.mod_upper_bound n 10 ltac:(lia)) as H.
  remember (n mod 10)%nat as k eqn:E. clear E.
  do 10 (destruct k as [|k]; [reflexivity|]). lia.
Qed.

Lemma plain_today w : plain (get_today_date w) = true.
Proof.
  unfold plain, get_today_date, strftime_Ymd.
  rewrite list_ascii_of_string_of_list_ascii. cbn [forallb].
  rewrite !plain_digit. reflexivity.
Qed.

Lemma wf_fresh_day w : wf (day_json (fresh_day (get_today_date w))) = true.
Proof. apply wf_day, plain_today. Qed.

Lemma wf_with_episode a e :
  wf (day_json a) = true -> wf (day_json (with_episode a e)) = true.
Proof.
  unfold day_json, with_episode.
  cbn [wf forallb fst snd nodup_keys has_key negb andb date_key openings].
  rewrite !wf_episodes, !andb_true_r. auto.
Qed.

(** ** Files *)

Lemma contents_after_write f g v st :
  contents g (after_write f v st) =
  if decide (f = g) then Some (json_dump v) else contents g st.
Proof. destruct f, g; reflexivity. Qed.

Lemma contents_after_set w id doc g st :
  contents g (after_set w id doc st) = contents g st.
Proof. unfold after_set. destruct (remote_fails w _), g; reflexivity. Qed.

Lemma contents_log e g st : contents g (log e st) = contents g st.
Proof. destruct g; reflexivity. Qed.

Lemma reads_after_write f v st : wf v = true -> reads f v (after_write f v st).
Proof.
  intros H. unfold reads. rewrite contents_after_write.
  destruct (decide (f = f)); [|congruence].
  unfold parse_file. now rewrite json_load_dump.
Qed.

Lemma reads_other_write f g v x st :
  f <> g -> reads g v st -> reads g v (after_write f x st).
Proof.
  intros Hne H. unfold reads in *. rewrite contents_after_write.
  destruct (decide (f = g)); [congruence | exact H].
Qed.

Lemma reads_after_set w id doc g v st :
  reads g v st -> reads g v (after_set w id doc st).
Proof. unfold reads. now rewrite contents_after_set. Qed.

Lemma reads_log e g v st : reads g v st -> reads g v (log e st).
Proof. unfold reads. now rewrite contents_log. Qed.

(** ** The calls on the remote store *)

Lemma doc_set_run w id doc st :
  doc_set w (JStr id) doc st =
  (if remote_fails w (DocSet id doc) then Raise RemoteError else Ok tt,
   after_set w id doc st).
Proof. unfold doc_set, after_set. now destruct (remote_fails w _). Qed.

Lemma try_doc_set w id doc st :
  try_except (doc_set w (JStr id) doc) st = (Ok tt, after_set w id doc st).
Proof. unfold try_except. rewrite doc_set_run. now destruct (remote_fails w _). Qed.

(** Unfolding one step of the monad. *)
Lemma bind_load f (k : json -> M unit) v st :
  reads f v st -> bind (load_file f) k st = k v st.
Proof. intros H. unfold bind, load_file. unfold reads in H. now rewrite H. Qed.

Lemma bind_lift_ok {A B} (a : A) (k : A -> M B) st : bind (lift (Ok a)) k st = k a st.
Proof. reflexivity. Qed.

Lemma try_bind_load f (k : json -> M unit) v st :
  reads f v st ->
  try_except (bind (load_file f) k) st = try_except (k v) st.
Proof. intros H. unfold try_except. now rewrite (bind_load f k v st H). Qed.

Lemma try_bind_lift_ok {A} (a : A) (k : A -> M unit) st :
  try_except (bind (lift (Ok a)) k) st = try_except (k a) st.
Proof. reflexivity. Qed.

Lemma bind_dump f v (k : unit -> M unit) st :
  bind (dump_file f v) k st = k tt (after_write f v st).
Proof. reflexivity. Qed.

Lemma bind_ret {A B} (a : A) (k : A -> M B) st : bind (ret a) k st = k a st.
Proof. reflexivity. Qed.

(** Evaluate the dictionary operations on the values at hand and move past
    the steps of the monad that have a result. *)
Ltac eval_py :=
  cbv beta iota zeta;
  cbn [getitem dict_get first contains has_key setitem dict_set add_int append
       eq_int eq_str status_json day_json episode_json negb orb andb
       date_key numOfOpenings openings isOpen lastOpened lastClosed
       String.eqb Ascii.eqb Bool.eqb];
  rewrite ?String.eqb_refl.

Ltac step :=
  eval_py;
  first [ rewrite try_bind_lift_ok
        | rewrite bind_lift_ok
        | rewrite bind_dump
        | rewrite bind_ret ];
  eval_py.

Lemma status_to_firebase_run w c st :
  reads CURRENT_STATUS_FILE (status_json c) st ->
  status_to_firebase w st =
  (Ok tt, after_set w "current_status" (status_json c) st).
Proof.
  intros H. unfold status_to_firebase, get_status_data.
  rewrite (try_bind_load _ _ _ _ H). do 3 step. apply try_doc_set.
Qed.

Lemma send_full_data_to_db_run w a st :
  reads DAY_DATA_FILE (day_json a) st ->
  send_full_data_to_db w st = (Ok tt, after_set w (date_key a) (day_doc a) st).
Proof.
  intros H. unfold send_full_data_to_db, get_day_data.
  rewrite (try_bind_load _ _ _ _ H). do 5 step. apply try_doc_set.
Qed.

Lemma bind_run {A B} (m : M A) (k : A -> M B) a st st' :
  m st = (Ok a, st') -> bind m k st = k a st'.
Proof. intros H. unfold bind. now rewrite H. Qed.

Create HintDb monitor.

#[export] Hint Resolve reads_after_write reads_other_write reads_after_set
  reads_log wf_status wf_fresh_day wf_with_episode wf_day plain_today : monitor.
#[export] Hint Extern 1 (_ <> _) => discriminate : monitor.

(** ** Appending an episode *)

Lemma current_openings_to_json_same_day w c a st :
  reads CURRENT_STATUS_FILE (status_json c) st ->
  reads DAY_DATA_FILE (day_json a) st ->
  date_key a = get_today_date w ->
  current_openings_to_json w st =
  (Ok tt, after_write DAY_DATA_FILE (day_json (with_episode a (episode_of c))) st).
Proof.
  intros Hs Hd Hk. destruct a as [d n l]. cbn [date_key] in Hk. subst d.
  unfold current_openings_to_json, get_status_data, get_day_data.
  rewrite (bind_load _ _ _ _ Hs). do 2 step. eval_py.
  rewrite (bind_load _ _ _ _ Hd). do 9 step.
  unfold dump_file, after_write, day_json, with_episode, episode_of.
  cbn [date_key numOfOpenings openings opened closed episode_json].
  rewrite map_app. reflexivity.
Qed.

Lemma current_openings_to_json_new_day w c a st :
  reads CURRENT_STATUS_FILE (status_json c) st ->
  reads DAY_DATA_FILE (day_json a) st ->
  date_key a <> get_today_date w ->
  current_openings_to_json w st =
  (Ok tt,
   after_write DAY_DATA_FILE
     (day_json (with_episode (fresh_day (get_today_date w)) (episode_of c))) st).
Proof.
  intros Hs Hd Hk. destruct a as [d n l]. cbn [date_key] in Hk.
  unfold current_openings_to_json, get_status_data, get_day_data.
  rewrite (bind_load _ _ _ _ Hs). do 2 step. eval_py.
  rewrite (bind_load _ _ _ _ Hd). step.
  assert (String.eqb (get_today_date w) d = false) as ->
    by (apply String.eqb_neq; congruence).
  reflexivity.
Qed.

(** ** The five ways through [update_status] *)

Lemma update_status_noop w status c st :
  reads CURRENT_STATUS_FILE (status_json c) st ->
  isOpen c = status ->
  update_status w status st = (Ok tt, st).
Proof.
  intros Hs E. unfold update_status, get_status_data.
  rewrite (bind_load _ _ _ _ Hs). step. rewrite E, Z.eqb_refl. reflexivity.
Qed.

(** The start shared by every real transition: the new record is written to
    the status file, and [k] is what remains to be done. *)
Lemma update_status_transition w status c st :
  reads CURRENT_STATUS_FILE (status_json c) st ->
  isOpen c <> status ->
  update_status w status st =
  bind
    (if status =? 0 then
       bind (lift (Ok (JInt (lastOpened c))))
         (fun lastOpened =>
            if negb (eq_int lastOpened 0) then
              bind (get_day_data)
                (fun day_data =>
                   bind (lift (first day_data))
                     (fun date_id =>
                        bind (if negb (eq_str date_id (get_today_date w))
                              then send_full_data_to_db w else ret tt)
                          (fun _ => current_openings_to_json w)))
            else ret tt)
     else ret tt)
    (fun _ => status_to_firebase w)
    (after_write CURRENT_STATUS_FILE
       (status_json (after_edge status (now w) c)) st).
Proof.
  intros Hs E. unfold update_status, get_status_data, get_timestamp.
  rewrite (bind_load _ _ _ _ Hs). step.
  apply Z.eqb_neq in E. rewrite E. step.
  unfold after_edge. destruct (status =? 0) eqn:E0.
  - step. rewrite bind_dump. eval_py. reflexivity.
  - step. rewrite bind_dump. reflexivity.
Qed.

Lemma update_status_open w status c st :
  reads CURRENT_STATUS_FILE (status_json c) st ->
  isOpen c <> status -> status <> 0 ->
  update_status w status st =
  (Ok tt,
   after_set w "current_status" (status_json (after_edge status (now w) c))
     (after_write CURRENT_STATUS_FILE
        (status_json (after_edge status (now w) c)) st)).
Proof.
  intros Hs E E0. rewrite (update_status_transition w status c st Hs E).
  apply Z.eqb_neq in E0. rewrite E0, bind_ret.
  apply status_to_firebase_run. auto with monitor.
Qed.

Lemma update_status_close_unpaired w c st :
  reads CURRENT_STATUS_FILE (status_json c) st ->
  isOpen c <> 0 -> lastOpened c = 0 ->
  update_status w 0 st =
  (Ok tt,
   after_set w "current_status" (status_json (after_edge 0 (now w) c))
     (after_write CURRENT_STATUS_FILE (status_json (after_edge 0 (now w) c)) st)).
Proof.
  intros Hs E E0. rewrite (update_status_transition w 0 c st Hs E).
  cbn [Z.eqb]. erewrite bind_run; cycle 1.
  { rewrite bind_lift_ok. cbn [eq_int]. rewrite E0. reflexivity. }
  apply status_to_firebase_run. auto with monitor.
Qed.

Lemma update_status_close_same_day w c a st :
  reads CURRENT_STATUS_FILE (status_json c) st ->
  reads DAY_DATA_FILE (day_json a) st ->
  isOpen c <> 0 -> lastOpened c <> 0 ->
  date_key a = get_today_date w ->
  update_status w 0 st =
  (Ok tt,
   after_set w "current_status" (status_json (after_edge 0 (now w) c))
     (after_write DAY_DATA_FILE
        (day_json (with_episode a (episode_of (after_edge 0 (now w) c))))
        (after_write CURRENT_STATUS_FILE
           (status_json (after_edge 0 (now w) c)) st))).
Proof.
  intros Hs Hd E E0 Hk. rewrite (update_status_transition w 0 c st Hs E).
  cbn [Z.eqb]. apply Z.eqb_neq in E0.
  set (c' := after_edge 0 (now w) c).
  set (st1 := after_write CURRENT_STATUS_FILE (status_json c') st).
  assert (reads CURRENT_STATUS_FILE (status_json c') st1) by (subst st1; auto with monitor).
  assert (reads DAY_DATA_FILE (day_json a) st1) by (subst st1; auto with monitor).
  unfold get_day_data.
  erewrite bind_run; cycle 1.
  { rewrite bind_lift_ok. cbn [eq_int]. rewrite E0. cbn [negb].
    erewrite bind_load by eassumption. cbn [day_json first]. rewrite bind_lift_ok.
    cbn [eq_str]. rewrite Hk, String.eqb_refl. cbn [negb]. rewrite bind_ret.
    apply current_openings_to_json_same_day; eauto. }
  apply status_to_firebase_run. auto with monitor.
Qed.

Lemma update_status_close_new_day w c a st :
  reads CURRENT_STATUS_FILE (status_json c) st ->
  reads DAY_DATA_FILE (day_json a) st ->
  isOpen c <> 0 -> lastOpened c <> 0 ->
  date_key a <> get_today_date w ->
  update_status w 0 st =
  (Ok tt,
   after_set w "current_status" (status_json (after_edge 0 (now w) c))
     (after_write DAY_DATA_FILE
        (day_json (with_episode (fresh_day (get_today_date w))
                     (episode_of (after_edge 0 (now w) c))))
        (after_set w (date_key a) (day_doc a)
           (after_write CURRENT_STATUS_FILE
              (status_json (after_edge 0 (now w) c)) st)))).
Proof.
  intros Hs Hd E E0 Hk. rewrite (update_status_transition w 0 c st Hs E).
  cbn [Z.eqb]. apply Z.eqb_neq in E0.
  set (c' := after_edge 0 (now w) c).
  set (st1 := after_write CURRENT_STATUS_FILE (status_json c') st).
  assert (reads CURRENT_STATUS_FILE (status_json c') st1) by (subst st1; auto with monitor).
  assert (reads DAY_DATA_FILE (day_json a) st1) by (subst st1; auto with monitor).
  unfold get_day_data.
  erewrite bind_run; cycle 1.
  { rewrite bind_lift_ok. cbn [eq_int]. rewrite E0. cbn [negb].
    erewrite bind_load by eassumption. cbn [day_json first]. rewrite bind_lift_ok.
    cbn [eq_str]. apply String.eqb_neq in Hk. rewrite Hk. cbn [negb].
    erewrite bind_run by (apply send_full_data_to_db_run; eassumption).
    apply current_openings_to_json_new_day with (a := a) (c := c');
      [auto with monitor | auto with monitor | now apply String.eqb_neq]. }
  apply status_to_firebase_run. auto 6 with monitor.
Qed.

(** ** The two ways through [new_day_is_here] that read the day file *)

Lemma doc_exists_run w id st :
  doc_exists w (JStr id) st =
  (if remote_fails w (DocGet id) then Raise RemoteError
   else Ok (match remote st !! id with Some _ => true | None => false end),
   log (DocGet id) st).
Proof. unfold doc_exists. now destruct (remote_fails w _). Qed.

Lemma new_day_is_here_skip w a st :
  reads DAY_DATA_FILE (day_json a) st ->
  remote_fails w (DocGet (date_key a)) = true \/ is_Some (remote st !! date_key a) ->
  new_day_is_here w st = (Ok tt, log (DocGet (date_key a)) st).
Proof.
  intros Hd Hskip. unfold new_day_is_here, get_day_data.
  rewrite (try_bind_load _ _ _ _ Hd). step.
  unfold try_except, bind. rewrite doc_exists_run.
  destruct (remote_fails w _); [reflexivity|].
  destruct Hskip as [|[doc ->]]; [discriminate | reflexivity].
Qed.

Lemma new_day_is_here_flush w a st :
  reads DAY_DATA_FILE (day_json a) st ->
  remote_fails w (DocGet (date_key a)) = false ->
  remote st !! date_key a = None ->
  new_day_is_here w st =
  (Ok tt,
   after_write DAY_DATA_FILE (day_json (fresh_day (get_today_date w)))
     (after_set w (date_key a) (day_doc a) (log (DocGet (date_key a)) st))).
Proof.
  intros Hd Hget Hnone. unfold new_day_is_here, get_day_data.
  rewrite (try_bind_load _ _ _ _ Hd). step.
  unfold try_except.
  erewrite bind_run by (rewrite doc_exists_run, Hget, Hnone; reflexivity).
  cbv beta iota.
  erewrite bind_run
    by (apply send_full_data_to_db_run with (a := a); auto with monitor).
  reflexivity.
Qed.

(** ** What the steps leave in the history, the store and the files *)

Lemma history_after_write f v st :
  history (after_write f v st) = history st ++ [Wrote f (json_dump v)].
Proof. destruct f; reflexivity. Qed.

Lemma history_after_set w id doc st :
  history (after_set w id doc st) = history st ++ [DocSet id doc].
Proof. unfold after_set. now destruct (remote_fails w _). Qed.

Lemma remote_after_write f v st : remote (after_write f v st) = remote st.
Proof. destruct f; reflexivity. Qed.

Lemma remote_after_set w id doc st :
  remote (after_set w id doc st) =
  if remote_fails w (DocSet id doc) then remote st else <[id := doc]> (remote st).
Proof. unfold after_set. now destruct (remote_fails w _). Qed.

Lemma local_after_set w id doc st : local (after_set w id doc st) = local st.
Proof. unfold after_set. now destruct (remote_fails w _). Qed.

Lemma local_after_write f v st1 st2 :
  local st1 = local st2 -> local (after_write f v st1) = local (after_write f v st2).
Proof. unfold local. intros [= H1 H2]. destruct f; cbn; congruence. Qed.

Lemma day_file_after_set w id doc st : day_file (after_set w id doc st) = day_file st.
Proof. unfold after_set. now destruct (remote_fails w _). Qed.

Lemma status_file_after_set w id doc st :
  status_file (after_set w id doc st) = status_file st.
Proof. unfold after_set. now destruct (remote_fails w _). Qed.

Lemma upserts_app h1 h2 : upserts (h1 ++ h2) = upserts h1 ++ upserts h2.
Proof.
  induction h1 as [|[f txt|id doc|id] h1 IH]; cbn [app upserts]; [reflexivity| | |];
    now rewrite IH.
Qed.

Lemma date_lt_neq d1 d2 : date_lt d1 d2 -> d1 <> d2.
Proof.
  unfold date_lt, String.ltb. intros H ->.
  pose proof (String.compare_antisym d2 d2) as Ha.
  destruct (String.compare d2 d2); discriminate.
Qed.

Lemma episode_json_inj e1 e2 : episode_json e1 = episode_json e2 -> e1 = e2.
Proof. destruct e1, e2. unfold episode_json. cbn. congruence. Qed.

Lemma day_json_inj a1 a2 : day_json a1 = day_json a2 -> a1 = a2.
Proof.
  destruct a1 as [d1 n1 l1], a2 as [d2 n2 l2]. unfold day_json. cbn.
  intros [= -> -> Hl]. f_equal.
  revert l2 Hl. induction l1 as [|e1 l1 IH]; intros [|e2 l2] Hl;
    try discriminate; [reflexivity|].
  cbn [map] in Hl. injection Hl as He Hl.
  f_equal; [apply episode_json_inj; unfold episode_json; congruence | now apply IH].
Qed.

End MonitorFacts.

(* ===================================================================== *)
(** * The properties of the specification *)
(* ===================================================================== *)

Module Claims.
Import Json Py Exec Monitor Props Examples JsonFacts MonitorFacts.

Local Open Scope string_scope.
Local Open Scope Z_scope.
Local Open Scope list_scope.

(** An edge to the state already stored returns at once, whatever the rest
    of the stored record is. *)
Lemma update_status_same_state w status v st :
  reads CURRENT_STATUS_FILE v st ->
  getitem v (JStr "isOpen") = Ok (JInt status) ->
  update_status w status st = (Ok tt, st).
Proof.
  intros Hs Hget. unfold update_status, get_status_data.
  rewrite (bind_load _ _ _ _ Hs), Hget, bind_lift_ok.
  cbn [eq_int]. now rewrite Z.eqb_refl.
Qed.

(** C5 — Idempotent duplicate edges.  When [update_status] is called with
    the value already stored under [isOpen], the status file and the day
    file are left as they were (nothing is appended to the aggregate) and
    no upsert is issued: the history of upserts is unchanged. *)
Theorem duplicate_edge_is_inert w status v st :
  reads CURRENT_STATUS_FILE v st ->
  getitem v (JStr "isOpen") = Ok (JInt status) ->
  let st' := snd (update_status w status st) in
  status_file st' = status_file st
  /\ day_file st' = day_file st
  /\ upserts (history st') = upserts (history st).
Proof.
  intros Hs Hget. rewrite (update_status_same_state w status v st Hs Hget).
  cbn. auto.
Qed.

Lemma duplicate_edge_is_inert_witness :
  let st := machine door_open jan1 ∅ in
  let st' := snd (update_status (online (on 2024 1 1) 1704111000) 1 st) in
  status_file st' = status_file st
  /\ day_file st' = day_file st
  /\ upserts (history st') = upserts (history st).
Proof.
  apply (duplicate_edge_is_inert _ 1 (status_json door_open)); vm_compute; reflexivity.
Defined.

(** C10 — A duplicate edge pushes no status either.  When [update_status]
    is called with the value already stored under [isOpen], it returns
    before [status_to_firebase]: no call on the remote store is recorded
    and the remote collection, its [current_status] document included, is
    what it was. *)
Theorem duplicate_edge_pushes_no_status w status v st :
  reads CURRENT_STATUS_FILE v st ->
  getitem v (JStr "isOpen") = Ok (JInt status) ->
  let st' := snd (update_status w status st) in
  fst (update_status w status st) = Ok tt
  /\ history st' = history st
  /\ remote st' = remote st.
Proof.
  intros Hs Hget. rewrite (update_status_same_state w status v st Hs Hget).
  cbn. auto.
Qed.

Lemma duplicate_edge_pushes_no_status_witness :
  let w := online (on 2024 1 1) 1704111000 in
  let st := machine door_closed jan1 ∅ in
  let st' := snd (update_status w 0 st) in
  fst (update_status w 0 st) = Ok tt
  /\ history st' = history st
  /\ remote st' = remote st.
Proof.
  apply (duplicate_edge_pushes_no_status _ 0 (status_json door_closed));
    vm_compute; reflexivity.
Defined.

(** C6 — No pairing without a prior open.  A closing edge on a record that
    says open with [lastOpened = 0] returns normally, writes the record
    with [isOpen = 0] and [lastClosed = now] to the status file, and leaves
    the day file as it was: no episode, same count. *)
Theorem close_without_prior_open w c st :
  reads CURRENT_STATUS_FILE (status_json c) st ->
  isOpen c <> 0 -> lastOpened c = 0 ->
  let st' := snd (update_status w 0 st) in
  let c' := {| isOpen := 0; lastOpened := 0; lastClosed := now w |} in
  fst (update_status w 0 st) = Ok tt
  /\ status_file st' = Some (json_dump (status_json c'))
  /\ reads CURRENT_STATUS_FILE (status_json c') st'
  /\ day_file st' = day_file st.
Proof.
  intros Hs Ho Hl. rewrite (update_status_close_unpaired w c st Hs Ho Hl).
  unfold after_edge. cbn [Z.eqb fst snd]. rewrite Hl.
  cbv zeta. repeat split.
  - rewrite status_file_after_set. reflexivity.
  - auto with monitor.
  - rewrite day_file_after_set. reflexivity.
Qed.

Lemma close_without_prior_open_witness :
  let w := online (on 2024 1 1) 1704111000 in
  let st := machine open_unrecorded jan1 ∅ in
  let st' := snd (update_status w 0 st) in
  let c' := {| isOpen := 0; lastOpened := 0; lastClosed := now w |} in
  fst (update_status w 0 st) = Ok tt
  /\ status_file st' = Some (json_dump (status_json c'))
  /\ reads CURRENT_STATUS_FILE (status_json c') st'
  /\ day_file st' = day_file st.
Proof.
  apply (close_without_prior_open _ open_unrecorded);
    [vm_compute; reflexivity | discriminate | reflexivity].
Defined.

(** C1 — Rollover when the day is already stored remotely, as the script
    does it.  When the remote store holds a document under the date of the
    local aggregate, [new_day_is_here] returns normally after the existence
    check: it issues no upsert, and it leaves the day file as it was (the
    aggregate is not reset). *)
Theorem rollover_skips_stored_day w a st :
  reads DAY_DATA_FILE (day_json a) st ->
  is_Some (remote st !! date_key a) ->
  let st' := snd (new_day_is_here w st) in
  fst (new_day_is_here w st) = Ok tt
  /\ upserts (history st') = upserts (history st)
  /\ remote st' = remote st
  /\ day_file st' = day_file st.
Proof.
  intros Hd Hin. rewrite (new_day_is_here_skip w a st Hd (or_intror Hin)).
  cbn [fst snd log history remote day_file]. rewrite upserts_app, app_nil_r. auto.
Qed.

Lemma rollover_skips_stored_day_witness :
  let w := online (on 2024 1 2) 1704146460 in
  let st := machine door_closed jan1 {[ "2024-01-01" := day_doc jan1 ]} in
  let st' := snd (new_day_is_here w st) in
  fst (new_day_is_here w st) = Ok tt
  /\ upserts (history st') = upserts (history st)
  /\ remote st' = remote st
  /\ day_file st' = day_file st.
Proof.
  apply (rollover_skips_stored_day _ jan1);
    [vm_compute; reflexivity | exists (day_doc jan1); apply lookup_singleton_eq].
Defined.

(** C1, as the specification states it, fails: on 2024-01-02, with the
    aggregate of 2024-01-01 in the day file and its document already in the
    remote store, the day file after [new_day_is_here] still holds the
    aggregate of 2024-01-01, not the empty aggregate of 2024-01-02. *)
Lemma rollover_reset_counterexample :
  let w := online (on 2024 1 2) 1704146460 in
  let st := machine door_closed jan1 {[ "2024-01-01" := day_doc jan1 ]} in
  let st' := snd (new_day_is_here w st) in
  reads DAY_DATA_FILE (day_json jan1) st
  /\ is_Some (remote st !! date_key jan1)
  /\ reads DAY_DATA_FILE (day_json jan1) st'
  /\ ~ reads DAY_DATA_FILE (day_json (fresh_day (get_today_date w))) st'.
Proof.
  cbv zeta.
  assert (reads DAY_DATA_FILE (day_json jan1)
            (machine door_closed jan1 {[ "2024-01-01" := day_doc jan1 ]})) as Hd
    by (vm_compute; reflexivity).
  assert (is_Some (({[ "2024-01-01" := day_doc jan1 ]} : gmap string json)
                     !! date_key jan1)) as Hin
    by (exists (day_doc jan1); apply lookup_singleton_eq).
  rewrite (new_day_is_here_skip _ jan1 _ Hd (or_intror Hin)). cbn [snd].
  split; [exact Hd|]. split; [exact Hin|]. split; [apply reads_log, Hd|].
  intros Hfresh. apply reads_log with (e := DocGet "x") in Hd.
  unfold reads in Hfresh, Hd. rewrite !contents_log in *.
  rewrite Hd in Hfresh. vm_compute in Hfresh. discriminate.
Qed.

(** C2 — Multi-day silence.  When the day file holds the aggregate of day
    [D], the remote store has no document under [D] and no remote call
    fails, [new_day_is_here] issues exactly one upsert, of the count and
    the episodes of that aggregate under [D], and the day file then holds
    the empty aggregate of today.  No other document is touched: in
    particular none under a date strictly between [D] and today.  Nothing
    is assumed on how far [D] lies behind today, so this covers a gap of
    two days or more. *)
Theorem rollover_after_silence w a st :
  reads DAY_DATA_FILE (day_json a) st ->
  remote st !! date_key a = None ->
  (forall e, remote_fails w e = false) ->
  let st' := snd (new_day_is_here w st) in
  fst (new_day_is_here w st) = Ok tt
  /\ upserts (history st') = upserts (history st) ++ [(date_key a, day_doc a)]
  /\ remote st' = <[date_key a := day_doc a]> (remote st)
  /\ reads DAY_DATA_FILE (day_json (fresh_day (get_today_date w))) st'
  /\ (forall k, date_lt (date_key a) k -> date_lt k (get_today_date w) ->
                remote st' !! k = remote st !! k).
Proof.
  intros Hd Hnone Hok.
  rewrite (new_day_is_here_flush w a st Hd (Hok _) Hnone). cbn [fst snd].
  assert (remote (after_write DAY_DATA_FILE (day_json (fresh_day (get_today_date w)))
                    (after_set w (date_key a) (day_doc a)
                       (log (DocGet (date_key a)) st)))
          = <[date_key a := day_doc a]> (remote st)) as Hremote
    by (rewrite remote_after_write, remote_after_set, Hok; reflexivity).
  split; [reflexivity|]. split; [|split; [exact Hremote|split]].
  - rewrite history_after_write, history_after_set.
    cbn [log history]. rewrite !upserts_app. cbn [upserts].
    now rewrite !app_nil_r.
  - auto with monitor.
  - intros k Hlt _. rewrite Hremote.
    apply lookup_insert_ne, (date_lt_neq _ _ Hlt).
Qed.

Lemma rollover_after_silence_witness :
  let w := online (on 2024 1 3) 1704232860 in
  let st := machine door_closed jan1 ∅ in
  let st' := snd (new_day_is_here w st) in
  fst (new_day_is_here w st) = Ok tt
  /\ upserts (history st') = upserts (history st) ++ [("2024-01-01", day_doc jan1)]
  /\ remote st' = <["2024-01-01" := day_doc jan1]> (remote st)
  /\ reads DAY_DATA_FILE (day_json (fresh_day "2024-01-03")) st'
  /\ (forall k, date_lt "2024-01-01" k -> date_lt k "2024-01-03" ->
                remote st' !! k = remote st !! k).
Proof.
  apply (rollover_after_silence (online (on 2024 1 3) 1704232860) jan1);
    [vm_compute; reflexivity | apply lookup_empty | reflexivity].
Defined.

(** C3 — Closing edge on a later day than the aggregate's.  A closing edge
    on a record that says open, with an opening time on record, while the
    day file holds the aggregate of another date [D]: the script writes the
    status file, then issues the upsert of the old aggregate under [D],
    and only then writes the day file, which then holds today's aggregate
    with the single episode [(lastOpened, now)] and a count of 1; the status
    push comes last.  When the upsert does not fail, the remote store holds
    the old aggregate under [D]. *)
Theorem closing_edge_on_new_day w c a st :
  reads CURRENT_STATUS_FILE (status_json c) st ->
  reads DAY_DATA_FILE (day_json a) st ->
  isOpen c <> 0 -> lastOpened c <> 0 ->
  date_key a <> get_today_date w ->
  let st' := snd (update_status w 0 st) in
  let c' := {| isOpen := 0; lastOpened := lastOpened c; lastClosed := now w |} in
  let a' := {| date_key := get_today_date w; numOfOpenings := 1;
               openings := [{| opened := lastOpened c; closed := now w |}] |} in
  fst (update_status w 0 st) = Ok tt
  /\ history st' =
       history st ++
       [Wrote CURRENT_STATUS_FILE (json_dump (status_json c'));
        DocSet (date_key a) (day_doc a);
        Wrote DAY_DATA_FILE (json_dump (day_json a'));
        DocSet "current_status" (status_json c')]
  /\ reads DAY_DATA_FILE (day_json a') st'
  /\ (remote_fails w (DocSet (date_key a) (day_doc a)) = false ->
      date_key a <> "current_status" ->
      remote st' !! date_key a = Some (day_doc a)).
Proof.
  intros Hs Hd Ho Hl Hk.
  rewrite (update_status_close_new_day w c a st Hs Hd Ho Hl Hk). cbv zeta.
  change (after_edge 0 (now w) c)
    with {| isOpen := 0; lastOpened := lastOpened c; lastClosed := now w |}.
  change (with_episode (fresh_day (get_today_date w)) (episode_of ?x))
    with {| date_key := get_today_date w; numOfOpenings := 1;
            openings := [{| opened := lastOpened x; closed := lastClosed x |}] |}.
  cbn [fst snd lastOpened lastClosed].
  split; [reflexivity|]. split; [|split].
  - rewrite history_after_set, history_after_write, history_after_set,
      history_after_write, <- !app_assoc. reflexivity.
  - apply reads_after_set, reads_after_write, wf_day, plain_today.
  - intros Hok Hne. rewrite remote_after_set.
    assert (remote (after_write DAY_DATA_FILE
              (day_json {| date_key := get_today_date w; numOfOpenings := 1;
                           openings := [{| opened := lastOpened c; closed := now w |}] |})
              (after_set w (date_key a) (day_doc a)
                 (after_write CURRENT_STATUS_FILE
                    (status_json {| isOpen := 0; lastOpened := lastOpened c;
                                    lastClosed := now w |}) st)))
            !! date_key a = Some (day_doc a)) as Hflushed
      by (rewrite remote_after_write, remote_after_set, Hok; apply lookup_insert_eq).
    destruct (remote_fails w (DocSet "current_status" _)); [exact Hflushed|].
    rewrite lookup_insert_ne by congruence. exact Hflushed.
Qed.

Lemma closing_edge_on_new_day_witness :
  let w := online (on 2024 1 2) 1704182400 in
  let st := machine door_open jan1 ∅ in
  let st' := snd (update_status w 0 st) in
  let c' := {| isOpen := 0; lastOpened := 1704110400; lastClosed := 1704182400 |} in
  let a' := {| date_key := "2024-01-02"; numOfOpenings := 1;
               openings := [{| opened := 1704110400; closed := 1704182400 |}] |} in
  fst (update_status w 0 st) = Ok tt
  /\ history st' =
       history st ++
       [Wrote CURRENT_STATUS_FILE (json_dump (status_json c'));
        DocSet "2024-01-01" (day_doc jan1);
        Wrote DAY_DATA_FILE (json_dump (day_json a'));
        DocSet "current_status" (status_json c')]
  /\ reads DAY_DATA_FILE (day_json a') st'
  /\ (remote_fails w (DocSet "2024-01-01" (day_doc jan1)) = false ->
      "2024-01-01" <> "current_status" ->
      remote st' !! "2024-01-01" = Some (day_doc jan1)).
Proof.
  apply (closing_edge_on_new_day (online (on 2024 1 2) 1704182400) door_open jan1);
    [vm_compute; reflexivity | vm_compute; reflexivity
     | discriminate | discriminate | discriminate].
Defined.

(** C4 — Open then close, as the script does it.  Starting from a record
    that says closed, an opening edge at [t1] followed by a closing edge at
    [t2], on the date of the aggregate in the day file: when [t1] is not 0,
    the value the script keeps for "never opened", the day file ends up
    holding the same aggregate with the one episode [(t1, t2)] added last
    and its count raised by 1.  The opening edge does not touch the day
    file.  The order of [t1] and [t2] plays no part. *)
Theorem open_then_close_appends_one w1 w2 c a st :
  reads CURRENT_STATUS_FILE (status_json c) st ->
  reads DAY_DATA_FILE (day_json a) st ->
  isOpen c = 0 ->
  now w1 <> 0 ->
  date_key a = get_today_date w2 ->
  let st1 := snd (update_status w1 1 st) in
  let st2 := snd (update_status w2 0 st1) in
  fst (update_status w1 1 st) = Ok tt
  /\ fst (update_status w2 0 st1) = Ok tt
  /\ day_file st1 = day_file st
  /\ reads DAY_DATA_FILE
       (day_json {| date_key := date_key a;
                    numOfOpenings := numOfOpenings a + 1;
                    openings := openings a ++ [{| opened := now w1; closed := now w2 |}] |})
       st2.
Proof.
  intros Hs Hd Hclosed Ht1 Hk.
  assert (isOpen c <> 1) as Hne by lia.
  rewrite (update_status_open w1 1 c st Hs Hne ltac:(discriminate)).
  change (after_edge 1 (now w1) c)
    with {| isOpen := 1; lastOpened := now w1; lastClosed := lastClosed c |}.
  cbv zeta. cbn [fst snd].
  set (c1 := {| isOpen := 1; lastOpened := now w1; lastClosed := lastClosed c |}).
  set (st1 := after_set w1 "current_status" (status_json c1)
                (after_write CURRENT_STATUS_FILE (status_json c1) st)).
  assert (reads CURRENT_STATUS_FILE (status_json c1) st1) as Hs1
    by (subst st1; auto with monitor).
  assert (reads DAY_DATA_FILE (day_json a) st1) as Hd1
    by (subst st1; auto with monitor).
  rewrite (update_status_close_same_day w2 c1 a st1 Hs1 Hd1
             ltac:(discriminate) Ht1 Hk).
  cbn [fst snd]. split; [reflexivity|]. split; [reflexivity|]. split.
  - subst st1. now rewrite day_file_after_set.
  - apply reads_after_set.
    apply (reads_after_write DAY_DATA_FILE
             (day_json (with_episode a (episode_of (after_edge 0 (now w2) c1))))).
    apply wf_with_episode, wf_day. rewrite Hk. apply plain_today.
Qed.

Lemma open_then_close_appends_one_witness :
  let w1 := online (on 2024 1 1) 1704110400 in
  let w2 := online (on 2024 1 1) 1704114000 in
  let st := machine door_closed jan1 ∅ in
  let st1 := snd (update_status w1 1 st) in
  let st2 := snd (update_status w2 0 st1) in
  fst (update_status w1 1 st) = Ok tt
  /\ fst (update_status w2 0 st1) = Ok tt
  /\ day_file st1 = day_file st
  /\ reads DAY_DATA_FILE
       (day_json {| date_key := "2024-01-01";
                    numOfOpenings := 1 + 1;
                    openings := openings jan1
                                ++ [{| opened := 1704110400; closed := 1704114000 |}] |})
       st2.
Proof.
  apply (open_then_close_appends_one (online (on 2024 1 1) 1704110400)
           (online (on 2024 1 1) 1704114000) door_closed jan1);
    [vm_compute; reflexivity | vm_compute; reflexivity | reflexivity
     | discriminate | reflexivity].
Defined.

(** C4, as the specification states it, fails at [t1 = 0]: from a record
    that says closed, an opening edge at second 0 and a closing edge at
    second 5 of 1970-01-01 leave the day file with the aggregate it had,
    without the episode [(0, 5)]. *)
Lemma pairing_at_epoch_counterexample :
  let w1 := online (on 1970 1 1) 0 in
  let w2 := online (on 1970 1 1) 5 in
  let st := machine never_opened epoch_day ∅ in
  let st2 := snd (update_status w2 0 (snd (update_status w1 1 st))) in
  now w1 < now w2
  /\ reads CURRENT_STATUS_FILE (status_json never_opened) st
  /\ reads DAY_DATA_FILE (day_json epoch_day) st
  /\ date_key epoch_day = get_today_date w2
  /\ reads DAY_DATA_FILE (day_json epoch_day) st2
  /\ ~ reads DAY_DATA_FILE
         (day_json (with_episode epoch_day {| opened := 0; closed := 5 |})) st2.
Proof.
  cbv zeta. repeat (split; [vm_compute; reflexivity|]).
  intros H. vm_compute in H. discriminate.
Qed.

(** The invariant looks at the day file only. *)
Lemma day_invariant_frame st st' :
  day_file st' = day_file st -> day_invariant st -> day_invariant st'.
Proof.
  intros E (a & Hr & Hc). exists a. split; [|exact Hc].
  unfold reads in *. cbn [contents] in *. now rewrite E.
Qed.

Lemma day_invariant_fresh w st :
  day_invariant (after_write DAY_DATA_FILE (day_json (fresh_day (get_today_date w))) st).
Proof.
  exists (fresh_day (get_today_date w)). split; [auto with monitor | reflexivity].
Qed.

Lemma counts_match_with_episode a e :
  counts_match a -> counts_match (with_episode a e).
Proof.
  unfold counts_match, with_episode. cbn [numOfOpenings openings].
  intros ->. rewrite length_app. cbn [length]. lia.
Qed.

Lemma current_openings_to_json_invariant w c st :
  reads CURRENT_STATUS_FILE (status_json c) st ->
  day_invariant st -> day_invariant (snd (current_openings_to_json w st)).
Proof.
  intros Hs (a & Hd & Hc).
  destruct (decide (date_key a = get_today_date w)) as [Hk|Hk].
  - rewrite (current_openings_to_json_same_day w c a st Hs Hd Hk). cbn [snd].
    exists (with_episode a (episode_of c)). split.
    + apply reads_after_write, wf_with_episode, wf_day. rewrite Hk. apply plain_today.
    + now apply counts_match_with_episode.
  - rewrite (current_openings_to_json_new_day w c a st Hs Hd Hk). cbn [snd].
    exists (with_episode (fresh_day (get_today_date w)) (episode_of c)). split.
    + auto with monitor.
    + reflexivity.
Qed.

Lemma update_status_invariant w status c st :
  reads CURRENT_STATUS_FILE (status_json c) st ->
  day_invariant st -> day_invariant (snd (update_status w status st)).
Proof.
  intros Hs Hinv. pose proof Hinv as (a & Hd & Hc).
  destruct (decide (isOpen c = status)) as [E|E].
  { now rewrite (update_status_noop w status c st Hs E). }
  destruct (decide (status = 0)) as [->|E0].
  2:{ rewrite (update_status_open w status c st Hs E E0). cbn [snd].
      apply day_invariant_frame with (st := st); [|exact Hinv].
      now rewrite day_file_after_set. }
  destruct (decide (lastOpened c = 0)) as [El|El].
  { rewrite (update_status_close_unpaired w c st Hs E El). cbn [snd].
    apply day_invariant_frame with (st := st); [|exact Hinv].
    now rewrite day_file_after_set. }
  destruct (decide (date_key a = get_today_date w)) as [Hk|Hk].
  - rewrite (update_status_close_same_day w c a st Hs Hd E El Hk). cbn [snd].
    eapply day_invariant_frame; [apply day_file_after_set|].
    exists (with_episode a (episode_of (after_edge 0 (now w) c))). split.
    + apply reads_after_write, wf_with_episode, wf_day. rewrite Hk. apply plain_today.
    + now apply counts_match_with_episode.
  - rewrite (update_status_close_new_day w c a st Hs Hd E El Hk). cbn [snd].
    eapply day_invariant_frame; [apply day_file_after_set|].
    exists (with_episode (fresh_day (get_today_date w))
              (episode_of (after_edge 0 (now w) c))). split.
    + auto with monitor.
    + reflexivity.
Qed.

Lemma new_day_is_here_invariant w st :
  day_invariant st -> day_invariant (snd (new_day_is_here w st)).
Proof.
  intros Hinv. pose proof Hinv as (a & Hd & Hc).
  destruct (remote_fails w (DocGet (date_key a))) eqn:Hget.
  { rewrite (new_day_is_here_skip w a st Hd (or_introl Hget)).
    now apply day_invariant_frame with (st := st). }
  destruct (remote st !! date_key a) as [doc|] eqn:Hdoc.
  { rewrite (new_day_is_here_skip w a st Hd); [|right; rewrite Hdoc; eauto].
    now apply day_invariant_frame with (st := st). }
  rewrite (new_day_is_here_flush w a st Hd Hget Hdoc). apply day_invariant_fresh.
Qed.

(** C7 — Count equals number of episodes.  The day file holds one
    aggregate whose [numOfOpenings] is the length of its [openings] after
    the start-up code has created it, and this is kept by every function
    that writes the file: [current_openings_to_json] (append and new-day
    overwrite), [update_status] around it, and [new_day_is_here]. *)
Theorem count_matches_episodes w st :
  (missing_or_empty DAY_DATA_FILE st = true ->
   day_invariant (snd (init_day_data w st)))
  /\ (day_invariant st ->
      (forall c, reads CURRENT_STATUS_FILE (status_json c) st ->
                 day_invariant (snd (current_openings_to_json w st)))
      /\ (forall c status, reads CURRENT_STATUS_FILE (status_json c) st ->
                           day_invariant (snd (update_status w status st)))
      /\ day_invariant (snd (new_day_is_here w st))).
Proof.
  split.
  - intros Hmiss. unfold init_day_data. rewrite Hmiss. apply day_invariant_fresh.
  - intros Hinv. split; [|split].
    + intros c Hs. now apply current_openings_to_json_invariant with (c := c).
    + intros c status Hs. now apply update_status_invariant with (c := c).
    + now apply new_day_is_here_invariant.
Qed.

Lemma count_matches_episodes_witness :
  let w := online (on 2024 1 2) 1704182400 in
  day_invariant (snd (init_day_data w blank))
  /\ day_invariant (snd (current_openings_to_json w (machine door_open jan1 ∅)))
  /\ day_invariant (snd (update_status w 0 (machine door_open jan1 ∅)))
  /\ day_invariant (snd (new_day_is_here w (machine door_open jan1 ∅))).
Proof.
  assert (day_invariant (machine door_open jan1 ∅)) as Hinv
    by (exists jan1; split; vm_compute; reflexivity).
  assert (reads CURRENT_STATUS_FILE (status_json door_open) (machine door_open jan1 ∅))
    as Hs by (vm_compute; reflexivity).
  intros w.
  destruct (count_matches_episodes w blank) as [Hinit _].
  destruct (count_matches_episodes w (machine door_open jan1 ∅)) as [_ Hkept].
  destruct (Hkept Hinv) as (Happend & Hedge & Hreset).
  split; [apply Hinit; reflexivity|].
  split; [exact (Happend door_open Hs)|].
  split; [exact (Hedge door_open 0 Hs) | exact Hreset].
Defined.

(** The files after an edge do not depend on which remote calls fail. *)
Lemma update_status_local w w' status c a st :
  now w' = now w -> today w' = today w ->
  reads CURRENT_STATUS_FILE (status_json c) st ->
  reads DAY_DATA_FILE (day_json a) st ->
  fst (update_status w status st) = Ok tt
  /\ local (snd (update_status w status st))
     = local (snd (update_status w' status st)).
Proof.
  intros Hnow Htoday Hs Hd.
  destruct w as [t d f], w' as [t' d' f']. cbn [now today] in Hnow, Htoday. subst t' d'.
  set (w := {| now := t; today := d; remote_fails := f |}).
  set (w' := {| now := t; today := d; remote_fails := f' |}).
  destruct (decide (isOpen c = status)) as [E|E].
  { now rewrite !(update_status_noop _ status c st Hs E). }
  destruct (decide (status = 0)) as [->|E0].
  2:{ rewrite (update_status_open w status c st Hs E E0),
        (update_status_open w' status c st Hs E E0).
      cbn [fst snd]. now rewrite !local_after_set. }
  destruct (decide (lastOpened c = 0)) as [El|El].
  { rewrite (update_status_close_unpaired w c st Hs E El),
      (update_status_close_unpaired w' c st Hs E El).
    cbn [fst snd]. now rewrite !local_after_set. }
  destruct (decide (date_key a = get_today_date w)) as [Hk|Hk].
  - rewrite (update_status_close_same_day w c a st Hs Hd E El Hk),
      (update_status_close_same_day w' c a st Hs Hd E El Hk).
    cbn [fst snd]. now rewrite !local_after_set.
  - rewrite (update_status_close_new_day w c a st Hs Hd E El Hk),
      (update_status_close_new_day w' c a st Hs Hd E El Hk).
    cbn [fst snd]. split; [reflexivity|]. rewrite !local_after_set.
    apply local_after_write. now rewrite !local_after_set.
Qed.

(** Only [dump_file] changes a file: reading, plain Python operations and
    the calls on the remote store do not. *)
Lemma keeps_bind {A B} (m : M A) (k : A -> M B) :
  keeps_files m -> (forall a, keeps_files (k a)) -> keeps_files (bind m k).
Proof.
  intros Hm Hk st. unfold bind. specialize (Hm st).
  destruct (m st) as [[a|e] st1]; cbn [snd] in *; [|exact Hm].
  now rewrite Hk.
Qed.

Lemma keeps_lift {A} (r : result A) : keeps_files (lift r).
Proof. intros st. reflexivity. Qed.

Lemma keeps_load f : keeps_files (load_file f).
Proof. intros st. reflexivity. Qed.

Lemma keeps_doc_set w id doc : keeps_files (doc_set w id doc).
Proof.
  intros st. destruct id; try reflexivity.
  rewrite doc_set_run. apply local_after_set.
Qed.

Lemma keeps_try (m : M unit) : keeps_files m -> keeps_files (try_except m).
Proof.
  intros Hm st. unfold try_except. specialize (Hm st).
  destruct (m st) as [[a|e] st1]; exact Hm.
Qed.

Lemma try_except_returns (m : M unit) st : fst (try_except m st) = Ok tt.
Proof. unfold try_except. now destruct (m st) as [[[]|e] st1]. Qed.

Ltac keeps :=
  repeat first [ apply keeps_try | apply keeps_bind | apply keeps_lift
               | apply keeps_load | apply keeps_doc_set | intros ? ].

Lemma status_to_firebase_keeps_files w : keeps_files (status_to_firebase w).
Proof. unfold status_to_firebase, get_status_data. keeps. Qed.

Lemma send_full_data_to_db_keeps_files w : keeps_files (send_full_data_to_db w).
Proof. unfold send_full_data_to_db, get_day_data. keeps. Qed.

(** C8 — Remote failures are swallowed.  In any state and whichever
    remote calls fail, [status_to_firebase] and [send_full_data_to_db]
    return normally and leave the two files as they are.  With both files
    readable, [update_status] then returns normally too, and the two files
    it leaves are those it leaves when no remote call fails at all: nothing
    written before or after a failed call is undone. *)
Theorem remote_failures_are_swallowed w status c a st :
  reads CURRENT_STATUS_FILE (status_json c) st ->
  reads DAY_DATA_FILE (day_json a) st ->
  (forall st0, fst (status_to_firebase w st0) = Ok tt
               /\ local (snd (status_to_firebase w st0)) = local st0)
  /\ (forall st0, fst (send_full_data_to_db w st0) = Ok tt
                  /\ local (snd (send_full_data_to_db w st0)) = local st0)
  /\ fst (update_status w status st) = Ok tt
  /\ local (snd (update_status w status st))
     = local (snd (update_status (healthy w) status st)).
Proof.
  intros Hs Hd. split; [|split].
  - intros st0. split; [apply try_except_returns | apply status_to_firebase_keeps_files].
  - intros st0. split; [apply try_except_returns | apply send_full_data_to_db_keeps_files].
  - now apply update_status_local with (c := c) (a := a).
Qed.

Lemma remote_failures_are_swallowed_witness :
  let w := offline (on 2024 1 2) 1704182400 in
  let st := machine door_open jan1 ∅ in
  (forall st0, fst (status_to_firebase w st0) = Ok tt
               /\ local (snd (status_to_firebase w st0)) = local st0)
  /\ (forall st0, fst (send_full_data_to_db w st0) = Ok tt
                  /\ local (snd (send_full_data_to_db w st0)) = local st0)
  /\ fst (update_status w 0 st) = Ok tt
  /\ local (snd (update_status w 0 st))
     = local (snd (update_status (healthy w) 0 st)).
Proof.
  apply (remote_failures_are_swallowed _ 0 door_open jan1); vm_compute; reflexivity.
Defined.

(** C9 — Round trip of the day file.  For an aggregate whose date is
    written without an escape sequence (printable ASCII without double
    quote or backslash, as every [yyyy-mm-dd] date is), [get_day_data]
    after [json.dump] of the aggregate into the day file returns that
    aggregate and no other. *)
Theorem day_data_round_trip X st :
  plain (date_key X) = true ->
  let st' := snd (dump_file DAY_DATA_FILE (day_json X) st) in
  get_day_data st' = (Ok (day_json X), st')
  /\ (forall Y, get_day_data st' = (Ok (day_json Y), st') -> Y = X).
Proof.
  intros Hplain. cbv zeta.
  assert (get_day_data (snd (dump_file DAY_DATA_FILE (day_json X) st))
          = (Ok (day_json X), snd (dump_file DAY_DATA_FILE (day_json X) st))) as Hread.
  { unfold get_day_data, load_file. f_equal.
    apply (reads_after_write DAY_DATA_FILE (day_json X) st), wf_day, Hplain. }
  split; [exact Hread|].
  intros Y HY. rewrite Hread in HY. apply day_json_inj. congruence.
Qed.

Lemma day_data_round_trip_witness :
  let st' := snd (dump_file DAY_DATA_FILE (day_json jan1) blank) in
  get_day_data st' = (Ok (day_json jan1), st')
  /\ (forall Y, get_day_data st' = (Ok (day_json Y), st') -> Y = jan1).
Proof. apply (day_data_round_trip jan1 blank). reflexivity. Defined.

End Claims.

(* ===================================================================== *)
(** * Further properties of the script *)
(* ===================================================================== *)

Module Extras.
Import Json Py Exec Monitor Props Program Examples JsonFacts MonitorFacts.

Local Open Scope string_scope.
Local Open Scope Z_scope.
Local Open Scope list_scope.

(** ** What keeps the status file *)

Lemma keeps_status_bind {A B} (m : M A) (k : A -> M B) :
  keeps_status m -> (forall a, keeps_status (k a)) -> keeps_status (bind m k).
Proof.
  intros Hm Hk st. unfold bind. specialize (Hm st).
  destruct (m st) as [[a|e] st1]; cbn [snd] in *; [|exact Hm].
  now rewrite Hk.
Qed.

Lemma keeps_status_lift {A} (r : result A) : keeps_status (lift r).
Proof. intros st. reflexivity. Qed.

Lemma keeps_status_ret {A} (a : A) : keeps_status (ret a).
Proof. intros st. reflexivity. Qed.

Lemma keeps_status_load f : keeps_status (load_file f).
Proof. intros st. reflexivity. Qed.

Lemma keeps_status_dump_day v : keeps_status (dump_file DAY_DATA_FILE v).
Proof. intros st. reflexivity. Qed.

Lemma keeps_status_doc_set w id doc : keeps_status (doc_set w id doc).
Proof.
  intros st. destruct id; try reflexivity.
  rewrite doc_set_run. apply status_file_after_set.
Qed.

Lemma keeps_status_doc_exists w id : keeps_status (doc_exists w id).
Proof.
  intros st. destruct id; try reflexivity.
  rewrite doc_exists_run. reflexivity.
Qed.

Lemma keeps_status_try (m : M unit) : keeps_status m -> keeps_status (try_except m).
Proof.
  intros Hm st. unfold try_except. specialize (Hm st).
  destruct (m st) as [[a|e] st1]; exact Hm.
Qed.

Ltac keeps_status :=
  repeat first
    [ apply keeps_status_try | apply keeps_status_bind | apply keeps_status_lift
    | apply keeps_status_ret | apply keeps_status_load
    | apply keeps_status_dump_day | apply keeps_status_doc_set
    | apply keeps_status_doc_exists
    | match goal with
      | |- keeps_status (if ?b then _ else _) => destruct b
      | |- forall _, keeps_status _ => intros ?
      end ].

Lemma send_full_data_to_db_keeps_status w : keeps_status (send_full_data_to_db w).
Proof. unfold send_full_data_to_db, get_day_data. keeps_status. Qed.

Lemma status_to_firebase_keeps_status w : keeps_status (status_to_firebase w).
Proof. unfold status_to_firebase, get_status_data. keeps_status. Qed.

Lemma current_openings_to_json_keeps_status w :
  keeps_status (current_openings_to_json w).
Proof.
  unfold current_openings_to_json, get_status_data, get_day_data. cbv zeta.
  keeps_status.
Qed.

Lemma new_day_is_here_keeps_status w : keeps_status (new_day_is_here w).
Proof.
  unfold new_day_is_here, get_day_data. keeps_status.
Qed.

Lemma reads_status_frame v st st' :
  status_file st' = status_file st ->
  reads CURRENT_STATUS_FILE v st -> reads CURRENT_STATUS_FILE v st'.
Proof. unfold reads. cbn [contents]. now intros ->. Qed.

Lemma reads_day_frame v st st' :
  day_file st' = day_file st ->
  reads DAY_DATA_FILE v st -> reads DAY_DATA_FILE v st'.
Proof. unfold reads. cbn [contents]. now intros ->. Qed.

(** What is left of [update_status] once the status file is written keeps
    that file. *)
Lemma after_transition_keeps_status w (status : Z) (lo : json) :
  keeps_status
    (bind
       (if status =? 0 then
          bind (lift (Ok lo))
            (fun lastOpened =>
               if negb (eq_int lastOpened 0) then
                 bind (get_day_data)
                   (fun day_data =>
                      bind (lift (first day_data))
                        (fun date_id =>
                           bind (if negb (eq_str date_id (get_today_date w))
                                 then send_full_data_to_db w else ret tt)
                             (fun _ => current_openings_to_json w)))
               else ret tt)
        else ret tt)
       (fun _ => status_to_firebase w)).
Proof.
  unfold get_day_data.
  repeat first
    [ apply current_openings_to_json_keeps_status
    | apply send_full_data_to_db_keeps_status
    | apply status_to_firebase_keeps_status
    | apply keeps_status_bind | apply keeps_status_lift
    | apply keeps_status_ret | apply keeps_status_load
    | match goal with
      | |- keeps_status (if ?b then _ else _) => destruct b
      | |- forall _, keeps_status _ => intros ?
      end ].
Qed.





(** X3 — An opening edge does not look at the day file.  On a record whose
    [isOpen] differs from the new state, an edge to a state other than 0
    returns normally whatever the day file holds, even when it is missing:
    it writes the record with the new state and [lastOpened = now], pushes
    it, and does nothing else. *)
Theorem opening_edge_ignores_day_file w status c st :
  reads CURRENT_STATUS_FILE (status_json c) st ->
  isOpen c <> status -> status <> 0 ->
  let c' := {| isOpen := status; lastOpened := now w; lastClosed := lastClosed c |} in
  let st' := snd (update_status w status st) in
  fst (update_status w status st) = Ok tt
  /\ reads CURRENT_STATUS_FILE (status_json c') st'
  /\ day_file st' = day_file st
  /\ history st' =
       history st ++ [Wrote CURRENT_STATUS_FILE (json_dump (status_json c'));
                      DocSet "current_status" (status_json c')].
Proof.
  intros Hs Hne H0. rewrite (update_status_open w status c st Hs Hne H0).
  unfold after_edge. apply Z.eqb_neq in H0. rewrite H0. cbv zeta. cbn [fst snd].
  split; [reflexivity|]. split; [auto with monitor|]. split.
  - now rewrite day_file_after_set.
  - rewrite history_after_set, history_after_write, <- app_assoc. reflexivity.
Qed.

Lemma opening_edge_ignores_day_file_witness :
  let w := online (on 2024 1 1) 1704110400 in
  let st := {| status_file := Some (json_dump (status_json door_closed));
               day_file := None; remote := ∅; history := [] |} in
  let c' := {| isOpen := 1; lastOpened := 1704110400; lastClosed := 1704099600 |} in
  let st' := snd (update_status w 1 st) in
  fst (update_status w 1 st) = Ok tt
  /\ reads CURRENT_STATUS_FILE (status_json c') st'
  /\ day_file st' = day_file st
  /\ history st' =
       history st ++ [Wrote CURRENT_STATUS_FILE (json_dump (status_json c'));
                      DocSet "current_status" (status_json c')].
Proof.
  apply (opening_edge_ignores_day_file (online (on 2024 1 1) 1704110400) 1 door_closed);
    [vm_compute; reflexivity | discriminate | discriminate].
Defined.

Lemma status_after_edge w status c st :
  reads CURRENT_STATUS_FILE (status_json c) st ->
  exists c',
    reads CURRENT_STATUS_FILE (status_json c') (snd (update_status w status st))
    /\ isOpen c' = status
    /\ (status = 0 -> lastOpened c' = lastOpened c)
    /\ (status <> 0 -> lastClosed c' = lastClosed c)
    /\ (isOpen c = status -> c' = c).
Proof.
  intros Hs. destruct (decide (isOpen c = status)) as [E|E].
  - exists c. rewrite (update_status_noop w status c st Hs E). cbn [snd]. auto.
  - exists (after_edge status (now w) c).
    rewrite (update_status_transition w status c st Hs E). split.
    + eapply reads_status_frame; [apply after_transition_keeps_status|].
      auto with monitor.
    + unfold after_edge. destruct (status =? 0) eqn:E0; cbn [isOpen lastOpened lastClosed].
      * apply Z.eqb_eq in E0. repeat split; congruence.
      * apply Z.eqb_neq in E0. repeat split; congruence.
Qed.

(** X4 — The stored state follows the edge.  Whatever the day file holds
    and whichever remote calls fail, and whether [update_status] returns or
    raises, the status file afterwards holds a record whose [isOpen] is the
    state of the edge.  A closing edge leaves [lastOpened] as it was, any
    other edge leaves [lastClosed] as it was, and an edge to the state
    already stored leaves the whole record. *)
Theorem stored_state_follows_edge w status c st :
  reads CURRENT_STATUS_FILE (status_json c) st ->
  exists c',
    reads CURRENT_STATUS_FILE (status_json c') (snd (update_status w status st))
    /\ isOpen c' = status
    /\ (status = 0 -> lastOpened c' = lastOpened c)
    /\ (status <> 0 -> lastClosed c' = lastClosed c)
    /\ (isOpen c = status -> c' = c).
Proof. apply status_after_edge. Qed.

Lemma stored_state_follows_edge_witness :
  exists c',
    reads CURRENT_STATUS_FILE (status_json c')
      (snd (update_status (offline (on 2024 1 2) 1704182400) 0
              {| status_file := Some (json_dump (status_json door_open));
                 day_file := None; remote := ∅; history := [] |}))
    /\ isOpen c' = 0
    /\ (0 = 0 -> lastOpened c' = lastOpened door_open)
    /\ (0 <> 0 -> lastClosed c' = lastClosed door_open)
    /\ (isOpen door_open = 0 -> c' = door_open).
Proof.
  apply (stored_state_follows_edge _ 0 door_open). vm_compute. reflexivity.
Defined.

(** ** The remote store after an edge *)

(** With both files readable, a real transition ends with the status push,
    from a state where only the document of the stale date can differ. *)
Lemma update_status_ends_with_push w status c a st :
  reads CURRENT_STATUS_FILE (status_json c) st ->
  reads DAY_DATA_FILE (day_json a) st ->
  isOpen c <> status ->
  exists mid,
    update_status w status st =
    (Ok tt, after_set w "current_status"
              (status_json (after_edge status (now w) c)) mid)
    /\ reads CURRENT_STATUS_FILE (status_json (after_edge status (now w) c)) mid
    /\ (forall k, k <> date_key a -> remote mid !! k = remote st !! k).
Proof.
  intros Hs Hd E.
  destruct (decide (status = 0)) as [->|E0].
  2:{ eexists. split; [apply (update_status_open w status c st Hs E E0)|].
      split; [auto with monitor | intros k _; now rewrite remote_after_write]. }
  destruct (decide (lastOpened c = 0)) as [El|El].
  { eexists. split; [apply (update_status_close_unpaired w c st Hs E El)|].
    split; [auto with monitor | intros k _; now rewrite remote_after_write]. }
  destruct (decide (date_key a = get_today_date w)) as [Hk|Hk].
  - eexists. split; [apply (update_status_close_same_day w c a st Hs Hd E El Hk)|].
    split; [auto with monitor | intros k _; now rewrite !remote_after_write].
  - eexists. split; [apply (update_status_close_new_day w c a st Hs Hd E El Hk)|].
    split; [auto 6 with monitor|].
    intros k Hne. rewrite remote_after_write, remote_after_set, remote_after_write.
    destruct (remote_fails w _); [reflexivity|]. now apply lookup_insert_ne.
Qed.

(** X5 — The remote status mirrors the file.  With both files readable,
    after an edge that changes the stored state and whose status push does
    not fail, the remote [current_status] document is the record the
    status file holds. *)
Theorem remote_status_mirrors_file w status c a st :
  reads CURRENT_STATUS_FILE (status_json c) st ->
  reads DAY_DATA_FILE (day_json a) st ->
  isOpen c <> status ->
  remote_fails w (DocSet "current_status"
                    (status_json (after_edge status (now w) c))) = false ->
  let st' := snd (update_status w status st) in
  reads CURRENT_STATUS_FILE (status_json (after_edge status (now w) c)) st'
  /\ remote st' !! "current_status"
     = Some (status_json (after_edge status (now w) c)).
Proof.
  intros Hs Hd E Hok.
  destruct (update_status_ends_with_push w status c a st Hs Hd E)
    as (mid & -> & Hmid & _).
  cbn [snd]. split; [auto with monitor|].
  rewrite remote_after_set, Hok. apply lookup_insert_eq.
Qed.

Lemma remote_status_mirrors_file_witness :
  let w := online (on 2024 1 2) 1704182400 in
  let st' := snd (update_status w 0 (machine door_open jan1 ∅)) in
  reads CURRENT_STATUS_FILE (status_json (after_edge 0 (now w) door_open)) st'
  /\ remote st' !! "current_status"
     = Some (status_json (after_edge 0 (now w) door_open)).
Proof.
  apply (remote_status_mirrors_file (online (on 2024 1 2) 1704182400) 0
           door_open jan1);
    [vm_compute; reflexivity | vm_compute; reflexivity | discriminate | reflexivity].
Defined.

(** X6 — An edge touches two remote documents at most.  With both files
    readable, [update_status] leaves every remote document as it was,
    apart from [current_status] and the one under the date of the
    aggregate in the day file. *)
Theorem edge_touches_two_documents w status c a st :
  reads CURRENT_STATUS_FILE (status_json c) st ->
  reads DAY_DATA_FILE (day_json a) st ->
  forall k, k <> "current_status" -> k <> date_key a ->
            remote (snd (update_status w status st)) !! k = remote st !! k.
Proof.
  intros Hs Hd k Hk1 Hk2. destruct (decide (isOpen c = status)) as [E|E].
  - now rewrite (update_status_noop w status c st Hs E).
  - destruct (update_status_ends_with_push w status c a st Hs Hd E)
      as (mid & -> & _ & Hmid).
    cbn [snd]. rewrite remote_after_set.
    destruct (remote_fails w _); [now apply Hmid|].
    rewrite lookup_insert_ne by congruence. now apply Hmid.
Qed.

Lemma edge_touches_two_documents_witness :
  remote (snd (update_status (online (on 2024 1 2) 1704182400) 0
                 (machine door_open jan1 {[ "2023-12-31" := JObj [] ]})))
    !! "2023-12-31"
  = ({[ "2023-12-31" := JObj [] ]} : gmap string json) !! "2023-12-31".
Proof.
  apply (edge_touches_two_documents (online (on 2024 1 2) 1704182400) 0
           door_open jan1);
    [vm_compute; reflexivity | vm_compute; reflexivity | discriminate | discriminate].
Defined.

(** X7 — A closing edge on a later day whose flush fails.  On a record that
    says open with an opening time, when the day file holds the aggregate
    of another date and the upsert of that aggregate fails, the day file is
    overwritten with today's first episode all the same, and the remote
    document under the old date is what it was: the old aggregate is in
    neither place. *)
Theorem failed_flush_on_closing_edge w c a st :
  reads CURRENT_STATUS_FILE (status_json c) st ->
  reads DAY_DATA_FILE (day_json a) st ->
  isOpen c <> 0 -> lastOpened c <> 0 ->
  date_key a <> get_today_date w ->
  date_key a <> "current_status" ->
  remote_fails w (DocSet (date_key a) (day_doc a)) = true ->
  let st' := snd (update_status w 0 st) in
  fst (update_status w 0 st) = Ok tt
  /\ reads DAY_DATA_FILE
       (day_json {| date_key := get_today_date w; numOfOpenings := 1;
                    openings := [{| opened := lastOpened c; closed := now w |}] |})
       st'
  /\ remote st' !! date_key a = remote st !! date_key a.
Proof.
  intros Hs Hd Ho Hl Hk Hne Hfail.
  rewrite (update_status_close_new_day w c a st Hs Hd Ho Hl Hk). cbn [fst snd].
  split; [reflexivity|]. split.
  - apply reads_after_set.
    apply (reads_after_write DAY_DATA_FILE
             (day_json (with_episode (fresh_day (get_today_date w))
                          (episode_of (after_edge 0 (now w) c))))).
    auto with monitor.
  - rewrite remote_after_set, remote_after_write, remote_after_set, Hfail,
      remote_after_write.
    destruct (remote_fails w (DocSet "current_status" _));
      [reflexivity | now apply lookup_insert_ne].
Qed.

Lemma failed_flush_on_closing_edge_witness :
  let w := offline (on 2024 1 2) 1704182400 in
  let st := machine door_open jan1 ∅ in
  let st' := snd (update_status w 0 st) in
  fst (update_status w 0 st) = Ok tt
  /\ reads DAY_DATA_FILE
       (day_json {| date_key := get_today_date w; numOfOpenings := 1;
                    openings := [{| opened := lastOpened door_open; closed := now w |}] |})
       st'
  /\ remote st' !! date_key jan1 = remote st !! date_key jan1.
Proof.
  apply (failed_flush_on_closing_edge (offline (on 2024 1 2) 1704182400)
           door_open jan1);
    [vm_compute; reflexivity | vm_compute; reflexivity | discriminate
     | discriminate | discriminate | discriminate | reflexivity].
Defined.

(** ** The scheduled job *)

(** X8 — The scheduled job never raises and never touches the status
    file, in any state and whichever remote calls fail. *)
Theorem rollover_is_contained w st :
  fst (new_day_is_here w st) = Ok tt
  /\ status_file (snd (new_day_is_here w st)) = status_file st.
Proof.
  split; [|apply new_day_is_here_keeps_status].
  unfold new_day_is_here, try_except.
  now destruct (bind _ _ st) as [[[]|e] st1].
Qed.



(** X10 — The existence check fails.  When the day file holds a dict and
    the check for a remote document under its first key raises,
    [new_day_is_here] returns normally, with nothing sent and the day file
    as it was: only the check itself is on record. *)
Theorem rollover_when_check_fails w v d st :
  reads DAY_DATA_FILE v st ->
  first v = Ok (JStr d) ->
  remote_fails w (DocGet d) = true ->
  new_day_is_here w st = (Ok tt, log (DocGet d) st).
Proof.
  intros Hv Hfirst Hfail. unfold new_day_is_here, get_day_data.
  rewrite (try_bind_load _ _ _ _ Hv), Hfirst, try_bind_lift_ok.
  unfold try_except, bind. now rewrite doc_exists_run, Hfail.
Qed.

Lemma rollover_when_check_fails_witness :
  let st := machine door_closed jan1 ∅ in
  new_day_is_here (offline (on 2024 1 2) 1704146460) st
  = (Ok tt, log (DocGet "2024-01-01") st).
Proof.
  apply (rollover_when_check_fails _ (day_json jan1)); vm_compute; reflexivity.
Defined.

(** X11 — The flush of the scheduled job fails.  When the day file holds
    the aggregate of [D], the existence check finds no document under [D]
    and the upsert then fails, [new_day_is_here] resets the day file to
    today's empty aggregate all the same and the remote store is what it
    was: the aggregate of [D] is in neither place. *)
Theorem rollover_when_flush_fails w a st :
  reads DAY_DATA_FILE (day_json a) st ->
  remote st !! date_key a = None ->
  remote_fails w (DocGet (date_key a)) = false ->
  remote_fails w (DocSet (date_key a) (day_doc a)) = true ->
  let st' := snd (new_day_is_here w st) in
  reads DAY_DATA_FILE (day_json (fresh_day (get_today_date w))) st'
  /\ remote st' = remote st
  /\ upserts (history st') = upserts (history st) ++ [(date_key a, day_doc a)].
Proof.
  intros Hd Hnone Hget Hfail.
  rewrite (new_day_is_here_flush w a st Hd Hget Hnone). cbn [snd].
  split; [auto with monitor|]. split.
  - rewrite remote_after_write, remote_after_set, Hfail. reflexivity.
  - rewrite history_after_write, history_after_set. cbn [log history].
    rewrite !upserts_app. cbn [upserts]. now rewrite !app_nil_r.
Qed.

Lemma rollover_when_flush_fails_witness :
  let w := {| now := 1704146460; today := on 2024 1 2;
              remote_fails := fun e => match e with DocSet _ _ => true | _ => false end |} in
  let st := machine door_closed jan1 ∅ in
  let st' := snd (new_day_is_here w st) in
  reads DAY_DATA_FILE (day_json (fresh_day (get_today_date w))) st'
  /\ remote st' = remote st
  /\ upserts (history st') = upserts (history st) ++ [(date_key jan1, day_doc jan1)].
Proof.
  apply (rollover_when_flush_fails
           {| now := 1704146460; today := on 2024 1 2;
              remote_fails := fun e => match e with DocSet _ _ => true | _ => false end |}
           jan1);
    [vm_compute; reflexivity | apply lookup_empty | reflexivity | reflexivity].
Defined.



(** ** Start-up *)

Lemma json_dump_not_empty v : String.eqb (json_dump v) EmptyString = false.
Proof.
  unfold json_dump. destruct (dump_start v) as (c & cs & -> & _). reflexivity.
Qed.

Lemma present_after_write f v st : missing_or_empty f (after_write f v st) = false.
Proof.
  unfold missing_or_empty. rewrite contents_after_write.
  destruct (decide (f = f)); [apply json_dump_not_empty | congruence].
Qed.

Lemma missing_other_write f g v st :
  f <> g -> missing_or_empty g (after_write f v st) = missing_or_empty g st.
Proof.
  intros Hne. unfold missing_or_empty. rewrite contents_after_write.
  destruct (decide (f = g)); [congruence | reflexivity].
Qed.

Lemma init_current_status_run st :
  init_current_status st =
  (Ok tt,
   if missing_or_empty CURRENT_STATUS_FILE st
   then after_write CURRENT_STATUS_FILE
          (status_json {| isOpen := 0; lastOpened := 0; lastClosed := 0 |}) st
   else st).
Proof. unfold init_current_status. now destruct (missing_or_empty _ st). Qed.

Lemma init_day_data_run w st :
  init_day_data w st =
  (Ok tt,
   if missing_or_empty DAY_DATA_FILE st
   then after_write DAY_DATA_FILE (day_json (fresh_day (get_today_date w))) st
   else st).
Proof. unfold init_day_data. now destruct (missing_or_empty _ st). Qed.

Lemma startup_run w st :
  startup w st =
  (Ok tt,
   let st1 :=
     if missing_or_empty CURRENT_STATUS_FILE st
     then after_write CURRENT_STATUS_FILE
            (status_json {| isOpen := 0; lastOpened := 0; lastClosed := 0 |}) st
     else st in
   if missing_or_empty DAY_DATA_FILE st1
   then after_write DAY_DATA_FILE (day_json (fresh_day (get_today_date w))) st1
   else st1).
Proof.
  unfold startup. erewrite bind_run by apply init_current_status_run.
  apply init_day_data_run.
Qed.

(** X13 — Start-up creates what is missing and nothing else.  The start-up
    code returns normally; a file that is missing or empty then holds its
    default (a closed door never opened, today's empty aggregate); a file
    that is there and not empty is left as it is, whatever it holds; the
    remote store is not touched. *)
Theorem startup_creates_what_is_missing w st :
  let st' := snd (startup w st) in
  fst (startup w st) = Ok tt
  /\ remote st' = remote st
  /\ (missing_or_empty CURRENT_STATUS_FILE st = true ->
      reads CURRENT_STATUS_FILE
        (status_json {| isOpen := 0; lastOpened := 0; lastClosed := 0 |}) st')
  /\ (missing_or_empty DAY_DATA_FILE st = true ->
      reads DAY_DATA_FILE (day_json (fresh_day (get_today_date w))) st')
  /\ (missing_or_empty CURRENT_STATUS_FILE st = false ->
      status_file st' = status_file st)
  /\ (missing_or_empty DAY_DATA_FILE st = false -> day_file st' = day_file st).
Proof.
  rewrite startup_run. cbv zeta. cbn [fst snd].
  destruct (missing_or_empty CURRENT_STATUS_FILE st) eqn:Hs.
  - rewrite missing_other_write by discriminate.
    destruct (missing_or_empty DAY_DATA_FILE st) eqn:Hd;
      repeat split; intros; try discriminate; auto with monitor.
  - destruct (missing_or_empty DAY_DATA_FILE st) eqn:Hd;
      repeat split; intros; try discriminate; auto with monitor.
Qed.

Lemma startup_creates_what_is_missing_witness :
  let w := online (on 2024 1 1) 1704096000 in
  let st' := snd (startup w blank) in
  reads CURRENT_STATUS_FILE (status_json never_opened) st'
  /\ reads DAY_DATA_FILE (day_json (fresh_day "2024-01-01")) st'.
Proof.
  intros w.
  destruct (startup_creates_what_is_missing w blank) as (_ & _ & Hs & Hd & _).
  split; [apply Hs | apply Hd]; reflexivity.
Defined.

(** X14 — A second start-up changes nothing.  After the start-up code has
    run once, running it again, on the same day or another, returns
    normally and leaves the state exactly as it is: a restart keeps the
    record and the aggregate on file. *)
Theorem second_startup_changes_nothing w w' st :
  startup w' (snd (startup w st)) = (Ok tt, snd (startup w st)).
Proof.
  rewrite (startup_run w st). cbv zeta. cbn [snd]. rewrite startup_run. cbv zeta.
  f_equal.
  destruct (missing_or_empty CURRENT_STATUS_FILE st) eqn:Hs.
  - rewrite (missing_other_write CURRENT_STATUS_FILE DAY_DATA_FILE) by discriminate.
    destruct (missing_or_empty DAY_DATA_FILE st) eqn:Hd.
    + rewrite (missing_other_write DAY_DATA_FILE CURRENT_STATUS_FILE) by discriminate.
      now rewrite !present_after_write.
    + now rewrite present_after_write, missing_other_write, Hd by discriminate.
  - destruct (missing_or_empty DAY_DATA_FILE st) eqn:Hd.
    + rewrite (missing_other_write DAY_DATA_FILE CURRENT_STATUS_FILE) by discriminate.
      now rewrite Hs, present_after_write.
    + now rewrite Hs, Hd.
Qed.

(** ** The status file *)

Lemma status_json_inj c1 c2 : status_json c1 = status_json c2 -> c1 = c2.
Proof. destruct c1, c2. unfold status_json. cbn. congruence. Qed.

(** X15 — Round trip of the status file.  [get_status_data] after
    [json.dump] of a status record into the status file returns that
    record and no other, whatever integers it holds. *)
Theorem status_round_trip c st :
  let st' := snd (dump_file CURRENT_STATUS_FILE (status_json c) st) in
  get_status_data st' = (Ok (status_json c), st')
  /\ (forall c', get_status_data st' = (Ok (status_json c'), st') -> c' = c).
Proof.
  cbv zeta.
  assert (get_status_data (snd (dump_file CURRENT_STATUS_FILE (status_json c) st))
          = (Ok (status_json c),
             snd (dump_file CURRENT_STATUS_FILE (status_json c) st))) as Hread.
  { unfold get_status_data, load_file. f_equal.
    apply (reads_after_write CURRENT_STATUS_FILE (status_json c) st), wf_status. }
  split; [exact Hread|].
  intros c' Hc'. rewrite Hread in Hc'. apply status_json_inj. congruence.
Qed.

(** ** Date keys *)

Lemma digit_char_inj a b : digit_char a = digit_char b -> (a mod 10 = b mod 10)%nat.
Proof.
  unfold digit_char. intros H. apply (f_equal nat_of_ascii) in H.
  pose proof (Nat.mod_upper_bound a 10 ltac:(lia)).
  pose proof (Nat.mod_upper_bound b 10 ltac:(lia)).
  rewrite !nat_ascii_embedding in H by lia. lia.
Qed.

Lemma digits_step a b : (a / 10 = b / 10 -> a mod 10 = b mod 10 -> a = b)%nat.
Proof.
  intros H1 H2. rewrite (Nat.div_mod_eq a 10), (Nat.div_mod_eq b 10).
  now rewrite H1, H2.
Qed.

Lemma two_digits a b :
  Z.of_nat a < 100 -> Z.of_nat b < 100 ->
  ((a / 10) mod 10 = (b / 10) mod 10 -> a mod 10 = b mod 10 -> a = b)%nat.
Proof.
  intros Ha Hb H1 H0.
  assert (a / 10 < 10)%nat by (apply Nat.Div0.div_lt_upper_bound; lia).
  assert (b / 10 < 10)%nat by (apply Nat.Div0.div_lt_upper_bound; lia).
  rewrite !Nat.mod_small in H1 by assumption. now apply digits_step.
Qed.

Lemma four_digits a b :
  Z.of_nat a < 10000 -> Z.of_nat b < 10000 ->
  ((a / 1000) mod 10 = (b / 1000) mod 10 -> (a / 100) mod 10 = (b / 100) mod 10 ->
   (a / 10) mod 10 = (b / 10) mod 10 -> a mod 10 = b mod 10 -> a = b)%nat.
Proof.
  intros Ha Hb H3 H2 H1 H0.
  assert (a / 1000 < 10)%nat by (apply Nat.Div0.div_lt_upper_bound; lia).
  assert (b / 1000 < 10)%nat by (apply Nat.Div0.div_lt_upper_bound; lia).
  rewrite !Nat.mod_small in H3 by assumption.
  apply digits_step; [|exact H0].
  apply digits_step; [|exact H1].
  apply digits_step; [|rewrite !Nat.Div0.div_div; exact H2].
  rewrite !Nat.Div0.div_div. exact H3.
Qed.

Lemma strftime_Ymd_inj d1 d2 :
  calendar d1 -> calendar d2 -> strftime_Ymd d1 = strftime_Ymd d2 -> d1 = d2.
Proof.
  destruct d1 as [y1 m1 d1], d2 as [y2 m2 d2].
  intros (Hy1 & Hm1 & Hd1) (Hy2 & Hm2 & Hd2) H.
  cbn [year month day] in *. unfold strftime_Ymd in H. cbn [year month day] in H.
  apply (f_equal list_ascii_of_string) in H.
  rewrite !list_ascii_of_string_of_list_ascii in H.
  injection H as Y3 Y2 Y1 Y0 M1 M0 D1 D0.
  apply digit_char_inj in Y3, Y2, Y1, Y0, M1, M0, D1, D0.
  f_equal; [now apply four_digits | now apply two_digits | now apply two_digits].
Qed.

(** X16 — One key per day, none of them the status document's.  The key
    [get_today_date] makes is never ["current_status"], so no day
    document can take the place of the status document; and two different
    calendar dates (year below 10000) never get the same key. *)
Theorem date_keys_are_distinct :
  (forall w, get_today_date w <> "current_status")
  /\ (forall d1 d2, calendar d1 -> calendar d2 -> d1 <> d2 ->
                    strftime_Ymd d1 <> strftime_Ymd d2).
Proof.
  split.
  - intros w H. unfold get_today_date, strftime_Ymd in H.
    apply (f_equal list_ascii_of_string) in H.
    rewrite list_ascii_of_string_of_list_ascii in H.
    apply (f_equal (@length ascii)) in H. discriminate.
  - intros d1 d2 H1 H2 Hne H. apply Hne. now apply strftime_Ymd_inj.
Qed.

Lemma date_keys_are_distinct_witness :
  strftime_Ymd (on 2024 1 2) <> strftime_Ymd (on 2024 12 1).
Proof.
  apply (proj2 date_keys_are_distinct);
    [repeat split; reflexivity | repeat split; reflexivity | discriminate].
Defined.

(** ** Sequences of firings *)

(** What an edge leaves on file when both files are readable: the record
    is the old one or the one of the edge; the aggregate is the old one,
    or, on a closing edge with an opening time on record, the old one or
    today's empty one with the new episode. *)
Lemma update_status_outcome w status c a st :
  reads CURRENT_STATUS_FILE (status_json c) st ->
  reads DAY_DATA_FILE (day_json a) st ->
  fst (update_status w status st) = Ok tt
  /\ exists c' a',
       reads CURRENT_STATUS_FILE (status_json c') (snd (update_status w status st))
       /\ reads DAY_DATA_FILE (day_json a') (snd (update_status w status st))
       /\ (c' = c \/ c' = after_edge status (now w) c)
       /\ (a' = a
           \/ (status = 0 /\ lastOpened c <> 0
               /\ (a' = with_episode a (episode_of (after_edge 0 (now w) c))
                   \/ a' = with_episode (fresh_day (get_today_date w))
                             (episode_of (after_edge 0 (now w) c))))).
Proof.
  intros Hs Hd.
  destruct (decide (isOpen c = status)) as [E|E].
  { rewrite (update_status_noop w status c st Hs E). split; [reflexivity|].
    exists c, a. auto. }
  destruct (decide (status = 0)) as [->|E0].
  2:{ rewrite (update_status_open w status c st Hs E E0). split; [reflexivity|].
      exists (after_edge status (now w) c), a. cbn [snd].
      repeat split; auto with monitor. }
  destruct (decide (lastOpened c = 0)) as [El|El].
  { rewrite (update_status_close_unpaired w c st Hs E El). split; [reflexivity|].
    exists (after_edge 0 (now w) c), a. cbn [snd].
    repeat split; auto with monitor. }
  destruct (decide (date_key a = get_today_date w)) as [Hk|Hk].
  - rewrite (update_status_close_same_day w c a st Hs Hd E El Hk).
    split; [reflexivity|].
    exists (after_edge 0 (now w) c),
      (with_episode a (episode_of (after_edge 0 (now w) c))). cbn [snd].
    split; [auto with monitor|]. split; [|auto 6].
    apply reads_after_set, reads_after_write, wf_with_episode, wf_day.
    rewrite Hk. apply plain_today.
  - rewrite (update_status_close_new_day w c a st Hs Hd E El Hk).
    split; [reflexivity|].
    exists (after_edge 0 (now w) c),
      (with_episode (fresh_day (get_today_date w))
         (episode_of (after_edge 0 (now w) c))). cbn [snd].
    split; [auto 6 with monitor|]. split; [|auto 6].
    apply reads_after_set, reads_after_write. auto with monitor.
Qed.

(** What the scheduled job leaves in the day file when it is readable: the
    aggregate it held, or today's empty one. *)
Lemma new_day_is_here_outcome w a st :
  reads DAY_DATA_FILE (day_json a) st ->
  exists a',
    reads DAY_DATA_FILE (day_json a') (snd (new_day_is_here w st))
    /\ (a' = a \/ a' = fresh_day (get_today_date w)).
Proof.
  intros Hd.
  destruct (remote_fails w (DocGet (date_key a))) eqn:Hget.
  { rewrite (new_day_is_here_skip w a st Hd (or_introl Hget)).
    exists a. split; [now apply reads_log | now left]. }
  destruct (remote st !! date_key a) as [doc|] eqn:Hdoc.
  { rewrite (new_day_is_here_skip w a st Hd); [|right; rewrite Hdoc; eauto].
    exists a. split; [now apply reads_log | now left]. }
  rewrite (new_day_is_here_flush w a st Hd Hget Hdoc). cbn [snd].
  exists (fresh_day (get_today_date w)). split; [auto with monitor | now right].
Qed.

Lemma fire_keeps_tidy w tr st :
  tidy st -> fst (fire w tr st) = Ok tt /\ tidy (snd (fire w tr st)).
Proof.
  intros (c & a & Hs & Hd & Hopen & Hcount & Hrec).
  assert (forall status, status = 0 \/ status = 1 ->
            fst (update_status w status st) = Ok tt
            /\ tidy (snd (update_status w status st))) as Hedge.
  { intros status Hstatus.
    destruct (update_status_outcome w status c a st Hs Hd)
      as (Hok & c' & a' & Hs' & Hd' & Hc' & Ha').
    split; [exact Hok|]. exists c', a'. split; [exact Hs'|]. split; [exact Hd'|].
    split.
    - destruct Hc' as [-> | ->]; [exact Hopen|].
      unfold after_edge. destruct (status =? 0); cbn [isOpen]; lia.
    - destruct Ha' as [-> | (-> & Hlo & [-> | ->])]; [now split | |].
      + split.
        * unfold counts_match, with_episode in *. cbn [numOfOpenings openings].
          rewrite Hcount, length_app. cbn [length]. lia.
        * cbn [with_episode openings]. apply Forall_app. split; [exact Hrec|].
          constructor; [exact Hlo | constructor].
      + split; [reflexivity|].
        cbn [with_episode fresh_day openings app]. constructor; [exact Hlo | constructor]. }
  destruct tr; cbn [fire].
  - apply Hedge. now right.
  - apply Hedge. now left.
  - split.
    + unfold new_day_is_here, try_except. now destruct (bind _ _ st) as [[[]|e] st1].
    + destruct (new_day_is_here_outcome w a st Hd) as (a' & Hd' & Ha').
      exists c, a'. split.
      { eapply reads_status_frame; [apply new_day_is_here_keeps_status | exact Hs]. }
      split; [exact Hd'|]. split; [exact Hopen|].
      destruct Ha' as [-> | ->]; [now split|]. split; [reflexivity | constructor].
Qed.

Lemma startup_is_tidy w st :
  missing_or_empty CURRENT_STATUS_FILE st = true ->
  missing_or_empty DAY_DATA_FILE st = true ->
  tidy (snd (startup w st)).
Proof.
  intros Hs Hd. rewrite startup_run. cbv zeta. cbn [snd].
  rewrite Hs, missing_other_write, Hd by discriminate.
  exists {| isOpen := 0; lastOpened := 0; lastClosed := 0 |},
    (fresh_day (get_today_date w)).
  repeat split; auto with monitor.
Qed.

Lemma run_keeps_tidy evs : forall st, tidy st -> tidy (run evs st).
Proof.
  induction evs as [|[w tr] evs IH]; intros st Ht; [exact Ht|].
  cbn [run]. apply IH. now apply fire_keeps_tidy.
Qed.

(** X17 — The files stay well formed and no callback raises.  From a first
    start on a machine with neither file, after any sequence of button
    callbacks and scheduled jobs, whichever remote calls failed on the
    way: the status file holds a record with [isOpen] 0 or 1, the day file
    holds one aggregate whose count is the length of its episodes, every
    episode has an opening time other than 0, and the next callback or job
    returns normally. *)
Theorem callbacks_never_raise w0 st0 evs :
  missing_or_empty CURRENT_STATUS_FILE st0 = true ->
  missing_or_empty DAY_DATA_FILE st0 = true ->
  let st := run evs (snd (startup w0 st0)) in
  tidy st /\ (forall w tr, fst (fire w tr st) = Ok tt).
Proof.
  intros Hs Hd. cbv zeta.
  assert (tidy (run evs (snd (startup w0 st0)))) as Ht
    by (apply run_keeps_tidy, startup_is_tidy; assumption).
  split; [exact Ht|]. intros w tr. now apply fire_keeps_tidy.
Qed.

Lemma callbacks_never_raise_witness :
  let w1 := online (on 2024 1 1) 1704096000 in
  let w2 := offline (on 2024 1 1) 1704099600 in
  let w3 := online (on 2024 1 2) 1704146460 in
  let st := run [(w1, Released); (w2, Pressed); (w3, Timer)] (snd (startup w1 blank)) in
  tidy st /\ (forall w tr, fst (fire w tr st) = Ok tt).
Proof.
  apply (callbacks_never_raise (online (on 2024 1 1) 1704096000) blank); reflexivity.
Defined.

Lemma fire_keeps_timely w tr t st :
  timely t st -> t <= now w -> timely (now w) (snd (fire w tr st)).
Proof.
  intros (c & a & Hs & Hd & Hlast & Heps) Ht.
  assert (forall status,
            timely (now w) (snd (update_status w status st))) as Hedge.
  { intros status.
    destruct (update_status_outcome w status c a st Hs Hd)
      as (_ & c' & a' & Hs' & Hd' & Hc' & Ha').
    exists c', a'. split; [exact Hs'|]. split; [exact Hd'|]. split.
    - destruct Hc' as [-> | ->]; [lia|].
      unfold after_edge. destruct (status =? 0); cbn [lastOpened]; lia.
    - assert (lastOpened c <= now w) as Hle by lia.
      destruct Ha' as [-> | (-> & _ & [-> | ->])]; [exact Heps | |];
        cbn [with_episode fresh_day openings app episode_of after_edge Z.eqb].
      + apply Forall_app. split; [exact Heps|].
        constructor; [exact Hle | constructor].
      + constructor; [exact Hle | constructor]. }
  destruct tr; cbn [fire]; [apply Hedge | apply Hedge |].
  destruct (new_day_is_here_outcome w a st Hd) as (a' & Hd' & Ha').
  exists c, a'. split.
  { eapply reads_status_frame; [apply new_day_is_here_keeps_status | exact Hs]. }
  split; [exact Hd'|]. split; [lia|].
  destruct Ha' as [-> | ->]; [exact Heps | constructor].
Qed.

Lemma run_keeps_timely evs :
  forall t st, timely t st -> clock_from t evs -> exists t', timely t' (run evs st).
Proof.
  induction evs as [|[w tr] evs IH]; intros t st Ht Hclock; [now exists t|].
  cbn [run clock_from] in *. destruct Hclock as [Hle Hclock].
  apply (IH (now w)); [now apply fire_keeps_timely with (t := t) | exact Hclock].
Qed.

(** X18 — No episode closes before it opens.  From a first start on a
    machine with neither file, at a time not before the epoch, after any
    sequence of button callbacks and scheduled jobs during which the clock
    never went back: the day file holds one aggregate, and in each of its
    episodes [opened] is at most [closed]. *)
Theorem episodes_are_chronological w0 st0 evs :
  missing_or_empty CURRENT_STATUS_FILE st0 = true ->
  missing_or_empty DAY_DATA_FILE st0 = true ->
  0 <= now w0 ->
  clock_from (now w0) evs ->
  exists a,
    reads DAY_DATA_FILE (day_json a) (run evs (snd (startup w0 st0)))
    /\ Forall (fun e => opened e <= closed e) (openings a).
Proof.
  intros Hs Hd Hepoch Hclock.
  assert (timely (now w0) (snd (startup w0 st0))) as Hstart.
  { rewrite startup_run. cbv zeta. cbn [snd].
    rewrite Hs, missing_other_write, Hd by discriminate.
    exists {| isOpen := 0; lastOpened := 0; lastClosed := 0 |},
      (fresh_day (get_today_date w0)).
    repeat split; auto with monitor. }
  destruct (run_keeps_timely evs _ _ Hstart Hclock) as (t' & c & a & _ & Ha & _ & Heps).
  now exists a.
Qed.

Lemma episodes_are_chronological_witness :
  let w1 := online (on 2024 1 1) 1704096000 in
  let w2 := offline (on 2024 1 1) 1704099600 in
  let w3 := online (on 2024 1 2) 1704146460 in
  exists a,
    reads DAY_DATA_FILE (day_json a)
      (run [(w1, Released); (w2, Pressed); (w3, Timer)] (snd (startup w1 blank)))
    /\ Forall (fun e => opened e <= closed e) (openings a).
Proof.
  apply (episodes_are_chronological (online (on 2024 1 1) 1704096000) blank);
    [reflexivity | reflexivity | discriminate | cbn; lia].
Defined.

(** ** A day of visits *)

Lemma with_visits_nil a : with_visits a [] = a.
Proof.
  destruct a as [d n l]. unfold with_visits. cbn [date_key numOfOpenings openings length map].
  f_equal; [lia | apply app_nil_r].
Qed.

Lemma with_visits_cons a v vs :
  with_visits a (v :: vs) = with_visits (with_episode a (visit_episode v)) vs.
Proof.
  destruct a as [d n l]. unfold with_visits, with_episode.
  cbn [date_key numOfOpenings openings length map].
  f_equal; [lia | now rewrite <- app_assoc].
Qed.

(** One visit on the day of the aggregate, from a closed door. *)
Lemma visit_adds_one_episode v c a st :
  reads CURRENT_STATUS_FILE (status_json c) st ->
  reads DAY_DATA_FILE (day_json a) st ->
  isOpen c = 0 ->
  now (fst v) <> 0 -> get_today_date (snd v) = date_key a ->
  exists c',
    reads CURRENT_STATUS_FILE (status_json c') (run (visit_edges v) st)
    /\ isOpen c' = 0
    /\ reads DAY_DATA_FILE (day_json (with_episode a (visit_episode v)))
         (run (visit_edges v) st)
    /\ (forall k, k <> "current_status" ->
                  remote (run (visit_edges v) st) !! k = remote st !! k).
Proof.
  destruct v as [wo wc]. cbn [fst snd]. intros Hs Hd Hclosed Ht Hk.
  cbn [run visit_edges fire fst snd].
  assert (isOpen c <> 1) as Hne by lia.
  rewrite (update_status_open wo 1 c st Hs Hne ltac:(discriminate)). cbn [snd].
  set (c1 := after_edge 1 (now wo) c).
  set (st1 := after_set wo "current_status" (status_json c1)
                (after_write CURRENT_STATUS_FILE (status_json c1) st)).
  assert (reads CURRENT_STATUS_FILE (status_json c1) st1) as Hs1
    by (subst st1; auto with monitor).
  assert (reads DAY_DATA_FILE (day_json a) st1) as Hd1
    by (subst st1; auto with monitor).
  rewrite (update_status_close_same_day wc c1 a st1 Hs1 Hd1
             ltac:(discriminate) Ht (eq_sym Hk)). cbn [snd].
  exists (after_edge 0 (now wc) c1). split; [auto with monitor|].
  split; [reflexivity|]. split.
  - apply reads_after_set.
    apply (reads_after_write DAY_DATA_FILE
             (day_json (with_episode a (episode_of (after_edge 0 (now wc) c1))))).
    apply wf_with_episode, wf_day. rewrite <- Hk. apply plain_today.
  - intros k Hcs. subst st1.
    rewrite remote_after_set, !remote_after_write, remote_after_set,
      remote_after_write.
    destruct (remote_fails wc _), (remote_fails wo _);
      rewrite ?lookup_insert_ne by congruence; reflexivity.
Qed.

Lemma visits_add_their_episodes vs :
  forall c a st,
    reads CURRENT_STATUS_FILE (status_json c) st ->
    reads DAY_DATA_FILE (day_json a) st ->
    isOpen c = 0 ->
    Forall (fun v => now (fst v) <> 0 /\ get_today_date (snd v) = date_key a) vs ->
    reads DAY_DATA_FILE (day_json (with_visits a vs))
      (run (flat_map visit_edges vs) st)
    /\ (forall k, k <> "current_status" ->
                  remote (run (flat_map visit_edges vs) st) !! k = remote st !! k).
Proof.
  induction vs as [|v vs IH]; intros c a st Hs Hd Hclosed Hall.
  - rewrite with_visits_nil. now split.
  - inversion Hall as [|v' vs' [Ht Hk] Hrest]; subst.
    destruct (visit_adds_one_episode v c a st Hs Hd Hclosed Ht Hk)
      as (c' & Hs' & Hclosed' & Hd' & Hframe).
    rewrite with_visits_cons.
    change (run (flat_map visit_edges (v :: vs)) st)
      with (run (flat_map visit_edges vs) (run (visit_edges v) st)).
    destruct (IH c' (with_episode a (visit_episode v)) _ Hs' Hd' Hclosed' Hrest)
      as (Hread & Hframe').
    split; [exact Hread|]. intros k Hne. now rewrite Hframe', Hframe.
Qed.

(** X19 — The document of a day is its visits.  Start from a closed door
    and the aggregate of day [D], with no document under [D] in the remote
    store.  After any number of visits on day [D] (the door opens at a
    time other than 0, then closes), whichever status pushes failed, the
    day file holds the aggregate with one episode per visit, in order, and
    its count raised by their number.  The next scheduled job, with the
    remote store within reach, stores exactly that under [D] and starts
    today's empty aggregate. *)
Theorem day_document_is_its_visits wt vs c a st :
  reads CURRENT_STATUS_FILE (status_json c) st ->
  reads DAY_DATA_FILE (day_json a) st ->
  isOpen c = 0 ->
  Forall (fun v => now (fst v) <> 0 /\ get_today_date (snd v) = date_key a) vs ->
  remote st !! date_key a = None ->
  date_key a <> "current_status" ->
  (forall e, remote_fails wt e = false) ->
  let st1 := run (flat_map visit_edges vs) st in
  let st2 := snd (fire wt Timer st1) in
  reads DAY_DATA_FILE (day_json (with_visits a vs)) st1
  /\ remote st2 !! date_key a = Some (day_doc (with_visits a vs))
  /\ reads DAY_DATA_FILE (day_json (fresh_day (get_today_date wt))) st2.
Proof.
  intros Hs Hd Hclosed Hall Hnone Hne Hok. cbv zeta.
  destruct (visits_add_their_episodes vs c a st Hs Hd Hclosed Hall) as (Hread & Hframe).
  split; [exact Hread|]. cbn [fire].
  assert (remote (run (flat_map visit_edges vs) st) !! date_key (with_visits a vs)
          = None) as Hnone1 by (cbn [with_visits date_key]; now rewrite Hframe).
  rewrite (new_day_is_here_flush wt (with_visits a vs) _ Hread (Hok _) Hnone1).
  cbn [snd]. split; [|auto with monitor].
  rewrite remote_after_write, remote_after_set, Hok. apply lookup_insert_eq.
Qed.

Lemma day_document_is_its_visits_witness :
  let v1 := (online (on 2024 1 1) 1704110400, offline (on 2024 1 1) 1704114000) in
  let v2 := (offline (on 2024 1 1) 1704120000, online (on 2024 1 1) 1704121000) in
  let wt := online (on 2024 1 2) 1704146460 in
  let st1 := run (flat_map visit_edges [v1; v2]) (machine door_closed jan1 ∅) in
  let st2 := snd (fire wt Timer st1) in
  reads DAY_DATA_FILE (day_json (with_visits jan1 [v1; v2])) st1
  /\ remote st2 !! date_key jan1 = Some (day_doc (with_visits jan1 [v1; v2]))
  /\ reads DAY_DATA_FILE (day_json (fresh_day (get_today_date wt))) st2.
Proof.
  apply (day_document_is_its_visits (online (on 2024 1 2) 1704146460)
           [(online (on 2024 1 1) 1704110400, offline (on 2024 1 1) 1704114000);
            (offline (on 2024 1 1) 1704120000, online (on 2024 1 1) 1704121000)]
           door_closed jan1);
    [vm_compute; reflexivity | vm_compute; reflexivity | reflexivity
     | repeat constructor; discriminate | apply lookup_empty | discriminate
     | reflexivity].
Defined.

(** ** More on how the callbacks compose *)

Lemma today_is_not_the_status_key w : get_today_date w <> "current_status".
Proof.
  intros H. unfold get_today_date, strftime_Ymd in H.
  apply (f_equal list_ascii_of_string) in H.
  rewrite list_ascii_of_string_of_list_ascii in H.
  apply (f_equal (@length ascii)) in H. discriminate.
Qed.

(** X20 — The same callback twice.  With a status record on file, a button
    callback followed by the same callback, at any later time and whatever
    the first one did or raised, finds the state it asks for already stored:
    the second returns normally and changes nothing. *)
Theorem repeated_callback_is_dropped w w' tr c st :
  reads CURRENT_STATUS_FILE (status_json c) st ->
  tr <> Timer ->
  fire w' tr (snd (fire w tr st)) = (Ok tt, snd (fire w tr st)).
Proof.
  intros Hs Htr.
  assert (forall status,
            update_status w' status (snd (update_status w status st))
            = (Ok tt, snd (update_status w status st))) as Hedge.
  { intros status.
    destruct (status_after_edge w status c st Hs) as (c' & Hs' & Hopen & _).
    now apply update_status_noop with (c := c'). }
  destruct tr; cbn [fire]; [apply Hedge | apply Hedge | congruence].
Qed.

Lemma repeated_callback_is_dropped_witness :
  let w := offline (on 2024 1 2) 1704182400 in
  let w' := online (on 2024 1 2) 1704182401 in
  let st := {| status_file := Some (json_dump (status_json door_open));
               day_file := None; remote := ∅; history := [] |} in
  fire w' Pressed (snd (fire w Pressed st)) = (Ok tt, snd (fire w Pressed st)).
Proof.
  apply (repeated_callback_is_dropped _ _ Pressed door_open);
    [vm_compute; reflexivity | discriminate].
Defined.

(** X21 — A closing edge on the day of the aggregate sends no aggregate.
    On a record that says open with an opening time, when the day file
    holds today's aggregate, [update_status] writes the status file, then
    the day file, then pushes the status: these three events and no other,
    so the only remote document that can change is [current_status]. *)
Theorem same_day_closing_sends_no_aggregate w c a st :
  reads CURRENT_STATUS_FILE (status_json c) st ->
  reads DAY_DATA_FILE (day_json a) st ->
  isOpen c <> 0 -> lastOpened c <> 0 ->
  date_key a = get_today_date w ->
  let st' := snd (update_status w 0 st) in
  let c' := {| isOpen := 0; lastOpened := lastOpened c; lastClosed := now w |} in
  let a' := with_episode a {| opened := lastOpened c; closed := now w |} in
  history st' =
    history st ++ [Wrote CURRENT_STATUS_FILE (json_dump (status_json c'));
                   Wrote DAY_DATA_FILE (json_dump (day_json a'));
                   DocSet "current_status" (status_json c')]
  /\ (forall k, k <> "current_status" -> remote st' !! k = remote st !! k).
Proof.
  intros Hs Hd Ho Hl Hk.
  rewrite (update_status_close_same_day w c a st Hs Hd Ho Hl Hk). cbv zeta.
  cbn [snd]. split.
  - rewrite history_after_set, !history_after_write, <- !app_assoc. reflexivity.
  - intros k Hne. rewrite remote_after_set, !remote_after_write.
    destruct (remote_fails w _); [reflexivity | now apply lookup_insert_ne].
Qed.

Lemma same_day_closing_sends_no_aggregate_witness :
  let w := online (on 2024 1 1) 1704114000 in
  let st := machine door_open jan1 ∅ in
  let st' := snd (update_status w 0 st) in
  let c' := {| isOpen := 0; lastOpened := lastOpened door_open; lastClosed := now w |} in
  let a' := with_episode jan1 {| opened := lastOpened door_open; closed := now w |} in
  history st' =
    history st ++ [Wrote CURRENT_STATUS_FILE (json_dump (status_json c'));
                   Wrote DAY_DATA_FILE (json_dump (day_json a'));
                   DocSet "current_status" (status_json c')]
  /\ (forall k, k <> "current_status" -> remote st' !! k = remote st !! k).
Proof.
  apply (same_day_closing_sends_no_aggregate (online (on 2024 1 1) 1704114000)
           door_open jan1);
    [vm_compute; reflexivity | vm_compute; reflexivity | discriminate
     | discriminate | reflexivity].
Defined.

(** X22 — The scheduled job right after a closing edge that rolled the day
    over.  A closing edge on a later day than the aggregate's leaves
    today's aggregate with one episode in the day file.  When the job then
    runs on that same day, with the remote store within reach and no
    document under today's date yet, it stores that one-episode aggregate
    under today's date and resets the day file to today's empty aggregate:
    the episode is then in the remote document only. *)
Theorem job_after_rollover_by_edge w wt c a st :
  reads CURRENT_STATUS_FILE (status_json c) st ->
  reads DAY_DATA_FILE (day_json a) st ->
  isOpen c <> 0 -> lastOpened c <> 0 ->
  date_key a <> get_today_date w ->
  get_today_date wt = get_today_date w ->
  remote st !! get_today_date w = None ->
  (forall e, remote_fails wt e = false) ->
  let st1 := snd (update_status w 0 st) in
  let st2 := snd (new_day_is_here wt st1) in
  let a1 := {| date_key := get_today_date w; numOfOpenings := 1;
               openings := [{| opened := lastOpened c; closed := now w |}] |} in
  reads DAY_DATA_FILE (day_json a1) st1
  /\ remote st2 !! get_today_date w = Some (day_doc a1)
  /\ reads DAY_DATA_FILE (day_json (fresh_day (get_today_date w))) st2.
Proof.
  intros Hs Hd Ho Hl Hk Hsame Hnone Hok. cbv zeta.
  rewrite (update_status_close_new_day w c a st Hs Hd Ho Hl Hk). cbn [snd].
  set (c' := after_edge 0 (now w) c).
  change (with_episode (fresh_day (get_today_date w)) (episode_of c'))
    with {| date_key := get_today_date w; numOfOpenings := 1;
            openings := [{| opened := lastOpened c; closed := now w |}] |}.
  set (a1 := {| date_key := get_today_date w; numOfOpenings := 1;
                openings := [{| opened := lastOpened c; closed := now w |}] |}).
  set (st1 := after_set w "current_status" (status_json c') _).
  assert (reads DAY_DATA_FILE (day_json a1) st1) as Hd1.
  { subst st1. apply reads_after_set, reads_after_write, wf_day, plain_today. }
  assert (remote st1 !! date_key a1 = None) as Hnone1.
  { subst st1. cbn [a1 date_key].
    rewrite remote_after_set, remote_after_write, remote_after_set,
      remote_after_write.
    pose proof (today_is_not_the_status_key w) as Hcs.
    destruct (remote_fails w (DocSet "current_status" _)),
      (remote_fails w (DocSet (date_key a) _));
      rewrite ?lookup_insert_ne by congruence; exact Hnone. }
  split; [exact Hd1|].
  rewrite (new_day_is_here_flush wt a1 st1 Hd1 (Hok _) Hnone1). cbn [snd].
  rewrite Hsame. split; [|auto with monitor].
  rewrite remote_after_write, remote_after_set, Hok. apply lookup_insert_eq.
Qed.

Lemma job_after_rollover_by_edge_witness :
  let w := online (on 2024 1 2) 1704146430 in
  let wt := online (on 2024 1 2) 1704146460 in
  let st1 := snd (update_status w 0 (machine door_open jan1 ∅)) in
  let st2 := snd (new_day_is_here wt st1) in
  let a1 := {| date_key := get_today_date w; numOfOpenings := 1;
               openings := [{| opened := lastOpened door_open; closed := now w |}] |} in
  reads DAY_DATA_FILE (day_json a1) st1
  /\ remote st2 !! get_today_date w = Some (day_doc a1)
  /\ reads DAY_DATA_FILE (day_json (fresh_day (get_today_date w))) st2.
Proof.
  apply (job_after_rollover_by_edge (online (on 2024 1 2) 1704146430)
           (online (on 2024 1 2) 1704146460) door_open jan1);
    [vm_compute; reflexivity | vm_compute; reflexivity | discriminate
     | discriminate | discriminate | reflexivity | apply lookup_empty
     | reflexivity].
Defined.

End Extras.
